(** * STF: the self-registering test harness of [stf.h]

    A shallow embedding of [Fox::AutomatedTestInstance] (a suite of named
    test cases with its assertion engine) and of [Fox::AutomationTester]
    (the registry that instantiates and runs every suite), followed by the
    properties of the harness.

    Conventions of the embedding:
    - member functions become computations in a state monad whose results
      distinguish a normal return, a failed [assert] (the process is
      terminated) and undefined behaviour (an out-of-range [operator[]], a
      dereferenced [end()] iterator, flowing off the end of a non-void
      function);
    - the build mode is the parameter [NDEBUG]: when it is [true] every
      [assert] is compiled out;
    - [int] and [unsigned int] values are integers of [Z], conversions to
      them are written out as wrap-around;
    - [float] is IEEE binary32, computed with the reference implementation
      of [SpecFloat];
    - streams are the text inserted so far;
    - the body of a test case is a program over the public interface of
      the suite, interpreted by [run];
    - beside the state of the program, a history of the calls of [DoWork]
      is kept, so that "invoked once, in order" can be stated. *)

From Stdlib Require Import ZArith Lia SpecFloat.
From Stdlib Require OrderedTypeEx.
From stdpp Require Import base list strings pretty.

(** ** C++ scalars, vectors and streams *)

Module Cxx.

Definition INT_MAX : Z := 2 ^ 31 - 1.

(** [static_cast<unsigned int>(z)] *)
Definition to_unsigned (z : Z) : Z := z mod 2 ^ 32.

(** [static_cast<signed int>(z)] *)
Definition to_signed (z : Z) : Z := (z + 2 ^ 31) mod 2 ^ 32 - 2 ^ 31.

(** [static_cast<unsigned int>(b)] for a [bool] *)
Definition of_bool (b : bool) : Z := if b then 1 else 0.

(** [v[i]] for a [std::vector] and a signed index converted to [size_t]:
    defined only inside the vector. *)
Definition vector_at {A} (v : list A) (i : Z) : option A :=
  if (0 <=? i)%Z then v !! Z.to_nat i else None.

(** [v[i] = x], defined only inside the vector. *)
Definition vector_assign {A} (v : list A) (i : Z) (x : A) : option (list A) :=
  if ((0 <=? i) && (i <? Z.of_nat (length v)))%Z
  then Some (<[Z.to_nat i := x]> v) else None.

(** [std::distance(v.begin(), std::find_if(v.begin(), v.end(), p))]:
    the position of the first element satisfying [p], [v.size()] when
    the search ends at [v.end()]. *)
Fixpoint find_if {A} (p : A -> bool) (v : list A) : nat :=
  match v with
  | [] => 0
  | x :: v' => if p x then 0 else S (find_if p v')
  end.

(** [std::string(s.c_str())]: the characters of [s] before its first NUL. *)
Fixpoint c_str (s : string) : string :=
  match s with
  | EmptyString => EmptyString
  | String c s' => if Ascii.eqb c Ascii.zero then EmptyString else String c (c_str s')
  end.

(** A [std::stringstream] that is only written to: the characters
    inserted so far and whether the stream is still [good()]. *)
Record stringstream : Type := mkStream { str : string; good : bool }.

Definition stream_empty : stringstream := mkStream "" true.

(** [ss << text]: a stream that has failed ignores insertions. *)
Definition stream_insert (ss : stringstream) (text : string) : stringstream :=
  if good ss then mkStream (str ss +:+ text) true else ss.

(** [ss.clear()] is [std::basic_ios::clear]: it sets the state to
    [goodbit]. *)
Definition stream_clear (ss : stringstream) : stringstream :=
  mkStream (str ss) true.

(** [ss.setstate(std::ios::failbit)] *)
Definition stream_setstate_fail (ss : stringstream) : stringstream :=
  mkStream (str ss) false.

(** A [std::ofstream]: closed, or open with the text written so far. *)
Record ofstream : Type := mkFile { is_open : bool; written : string }.

(** A [std::map<std::string, V>]: the entries in increasing key order.
    [m[k] = v] replaces the value of an existing key and otherwise inserts
    the entry at its place in the order. *)
Fixpoint map_assign {V} (k : string) (v : V) (m : list (string * V)) : list (string * V) :=
  match m with
  | [] => [(k, v)]
  | (k', v') :: m' =>
      if String.ltb k k' then (k, v) :: m
      else if String.eqb k k' then (k, v) :: m'
      else (k', v') :: map_assign k v m'
  end.

(** [m.find(k)] *)
Fixpoint map_find {V} (k : string) (m : list (string * V)) : option V :=
  match m with
  | [] => None
  | (k', v') :: m' => if String.eqb k k' then Some v' else map_find k m'
  end.

(** The invariant of the container: keys strictly increasing. *)
Fixpoint map_ordered {V} (m : list (string * V)) : bool :=
  match m with
  | [] => true
  | (k, _) :: m' =>
      match m' with
      | [] => true
      | (k', _) :: _ => String.ltb k k' && map_ordered m'
      end
  end.

(** ** [float]: IEEE binary32 *)

Definition prec : Z := 24.
Definition emax : Z := 128.
Definition float : Type := spec_float.

Definition float_sub (a b : float) : float := SFsub prec emax a b.
Definition float_abs (a : float) : float := SFabs a.
Definition float_lt (a b : float) : bool := SFltb a b.

(** [std::numeric_limits<float>().epsilon()] is [FLT_EPSILON], 2^-23. *)
Definition float_epsilon : float := S754_finite false 8388608 (-46).

(** The [float] nearest to the quotient of two integers that are
    themselves representable (below 2^24): how a decimal literal with
    numerator [n] and denominator [d] is read. *)
Definition float_of_ratio (n d : Z) : float :=
  SFdiv prec emax (binary_normalize prec emax n 0 false)
                  (binary_normalize prec emax d 0 false).

End Cxx.

Import Cxx.

(** ** Results of a computation *)

Inductive outcome (S A : Type) : Type :=
| Ret (a : A) (s : S)     (* normal return with the state reached *)
| Aborted (s : S)         (* a failed assert: the process stops in state s *)
| Undefined               (* undefined behaviour *)
| Unfinished.             (* the iteration budget of a loop was used up *)

Arguments Ret {S A} a s.
Arguments Aborted {S A} s.
Arguments Undefined {S A}.
Arguments Unfinished {S A}.

Definition comp (S A : Type) : Type := S -> outcome S A.

Definition ret {S A} (a : A) : comp S A := fun s => Ret a s.

Definition bind {S A B} (m : comp S A) (f : A -> comp S B) : comp S B :=
  fun s =>
    match m s with
    | Ret a s' => f a s'
    | Aborted s' => Aborted s'
    | Undefined => Undefined
    | Unfinished => Unfinished
    end.

Definition get {S} : comp S S := fun s => Ret s s.
Definition modify {S} (f : S -> S) : comp S unit := fun s => Ret tt (f s).
Definition undefined {S A} : comp S A := fun _ => Undefined.

(** A value that exists only when the operation is defined. *)
Definition defined {S A} (o : option A) : comp S A :=
  match o with Some a => ret a | None => undefined end.

Declare Scope comp_scope.
Delimit Scope comp_scope with comp.
Notation "x <- m ;; k" := (bind m (fun x => k))
  (at level 100, m at next level, right associativity) : comp_scope.
Notation "m ;;; k" := (bind m (fun _ => k))
  (at level 100, right associativity) : comp_scope.
Open Scope comp_scope.

(** [assert(c)]: nothing when [NDEBUG] is defined, otherwise the process
    is terminated when [c] is false. *)
Definition cassert {S} (NDEBUG : bool) (c : bool) : comp S unit :=
  fun s => if NDEBUG then Ret tt s else if c then Ret tt s else Aborted s.

(** ** Text constants *)

Definition ESC : string := String (Ascii.ascii_of_nat 27) "".
Definition TEXT_RED : string := ESC +:+ "[31m".
Definition TEXT_GREEN : string := ESC +:+ "[32m".
Definition TEXT_WHITE : string := ESC +:+ "[37m".
Definition ENDLINE : string := String (Ascii.ascii_of_nat 10) "".

(** [__floatsAlmostSame(a, b)] with its default [epsilon]. *)
Definition __floatsAlmostSame (a b : float) : bool :=
  float_lt (float_abs (float_sub a b)) float_epsilon.

(** [std::isfinite]: neither an infinity nor a NaN. *)
Definition isfinite (a : float) : bool :=
  match a with
  | S754_zero _ | S754_finite _ _ _ => true
  | S754_infinity _ | S754_nan => false
  end.

(** ** The data model *)

Inductive ETestStatus : Type := NOT_TESTED | PASSED | FAILED.

Definition status_of_failed (failed : bool) : ETestStatus :=
  if failed then FAILED else PASSED.

Section Suite.

(** The fixture: the member variables a test class adds to the base
    class. *)
Context {F : Type}.

(** The body of a test case, a [std::function<void(void)>] capturing
    [this]: a program over the public interface of the suite, each call
    continued with its result. [Return] is the end of the body or a
    [return;] statement. *)
Inductive TestFunction : Type :=
| Return
| Call_TestTrue (expression : bool) (k : bool -> TestFunction)
| Call_TestFalse (expression : bool) (k : bool -> TestFunction)
| Call_TestEqual_int (value expected : Z) (k : bool -> TestFunction)
| Call_TestEqual_unsigned (value expected : Z) (k : bool -> TestFunction)
| Call_TestEqual_float (value expected : float) (k : bool -> TestFunction)
| Call_GetTestNames (k : list string -> TestFunction)
| Call_GetCurrentRunningTest (k : Z -> TestFunction)
| Call_GetResults (k : list ETestStatus -> TestFunction)
| Call_GetLog (k : string -> TestFunction)
| Call_ResetLog (k : TestFunction)
| Call_ResetFlags (k : TestFunction)
| OutLog_insert (text : string) (k : TestFunction)
| OutLog_setstate_fail (k : TestFunction)
| Current_name (k : string -> TestFunction)
| cerr_insert (text : string) (k : TestFunction)
| Fixture_read (k : F -> TestFunction)
| Fixture_write (f : F) (k : TestFunction).

Record DTestCase : Type := mkCase { Name : string; Func : TestFunction }.

(** The constructor [DTestCase(name, testFunction)]: [Name] is initialised
    from [name.c_str()]. *)
Definition DTestCase_new (name : string) (testFunction : TestFunction) : DTestCase :=
  mkCase (c_str name) testFunction.

Record AutomatedTestInstance : Type := mkInstance {
  _tests : list DTestCase;
  _testStatus : list ETestStatus;
  _failed : bool;
  _log : stringstream;
  _currentRunningTest : Z;
  fixture : F
}.

(** What a member function acts on: the instance, the text sent to
    [std::cerr], and a history (not program data) of the positions of the
    cases whose [DoWork] was called. *)
Record World : Type := mkWorld {
  self : AutomatedTestInstance;
  cerr : string;
  invoked : list nat
}.

Definition M (A : Type) : Type := comp World A.

Definition with_self (f : AutomatedTestInstance -> AutomatedTestInstance) : M unit :=
  modify (fun w => mkWorld (f (self w)) (cerr w) (invoked w)).

Definition cerr_write (text : string) : M unit :=
  modify (fun w => mkWorld (self w) (cerr w +:+ text) (invoked w)).

Definition note_invoked (position : nat) : M unit :=
  modify (fun w => mkWorld (self w) (cerr w) (invoked w ++ [position])).

Definition set_failed (b : bool) (t : AutomatedTestInstance) : AutomatedTestInstance :=
  mkInstance (_tests t) (_testStatus t) b (_log t) (_currentRunningTest t) (fixture t).

Definition set_currentRunningTest (i : Z) (t : AutomatedTestInstance) : AutomatedTestInstance :=
  mkInstance (_tests t) (_testStatus t) (_failed t) (_log t) i (fixture t).

Definition set_testStatus (v : list ETestStatus) (t : AutomatedTestInstance) : AutomatedTestInstance :=
  mkInstance (_tests t) v (_failed t) (_log t) (_currentRunningTest t) (fixture t).

Definition set_log (l : stringstream) (t : AutomatedTestInstance) : AutomatedTestInstance :=
  mkInstance (_tests t) (_testStatus t) (_failed t) l (_currentRunningTest t) (fixture t).

Definition set_tests (v : list DTestCase) (t : AutomatedTestInstance) : AutomatedTestInstance :=
  mkInstance v (_testStatus t) (_failed t) (_log t) (_currentRunningTest t) (fixture t).

Definition set_fixture (f : F) (t : AutomatedTestInstance) : AutomatedTestInstance :=
  mkInstance (_tests t) (_testStatus t) (_failed t) (_log t) (_currentRunningTest t) f.

(** The instance right after construction. *)
Definition new_instance (f : F) : AutomatedTestInstance :=
  mkInstance [] [] false stream_empty (-1) f.

(** *** Const member functions *)

Definition GetTestNames (t : AutomatedTestInstance) : list string :=
  map Name (_tests t).

Definition GetCurrentRunningTest (t : AutomatedTestInstance) : Z :=
  _currentRunningTest t.

Definition GetResults (t : AutomatedTestInstance) : list ETestStatus :=
  _testStatus t.

Definition GetLog (t : AutomatedTestInstance) : string := str (_log t).

(** [GetResult]: the loop returns [_testStatus[i]] at the first [i] whose
    name matches; when no name matches, control leaves the function without
    a [return], so there is no value ([None]), as there is none when the
    [int] counter would overflow. [tests] is what is left of [_tests] from
    position [i] on. *)
Fixpoint GetResult_from (name : string) (status : list ETestStatus)
    (tests : list DTestCase) (i : Z) : option ETestStatus :=
  match tests with
  | [] => None
  | test :: rest =>
      if String.eqb (Name test) name then vector_at status i
      else if (i =? INT_MAX)%Z then None
      else GetResult_from name status rest (i + 1)
  end.

Definition GetResult (t : AutomatedTestInstance) (name : string) : option ETestStatus :=
  GetResult_from name (_testStatus t) (_tests t) 0.

(** *** State of the run *)

Definition ResetFlags : M unit :=
  with_self (set_failed false);;;
  with_self (set_currentRunningTest (-1)).

Definition ResetLog : M unit :=
  with_self (fun t => set_log (stream_clear (_log t)) t).

(** [OutLog() << text] *)
Definition OutLog_write (text : string) : M unit :=
  with_self (fun t => set_log (stream_insert (_log t) text) t).

(** [GetTestNames()[GetCurrentRunningTest()]], the case named by the
    diagnostics. *)
Definition current_name : M string :=
  w <- get;;
  defined (vector_at (GetTestNames (self w)) (GetCurrentRunningTest (self w))).

(** *** The assertion engine *)

(** The build mode, and the text [operator<<] produces for a [float]
    (number formatting is not modelled). *)
Context (NDEBUG : bool) (show_float : float -> string).

Definition TestTrue (expression : bool) : M bool :=
  (if negb expression then with_self (set_failed true) else ret tt);;;
  ret expression.

Definition TestFalse (expression : bool) : M bool :=
  (if expression then with_self (set_failed true) else ret tt);;;
  ret expression.

(** The line sent to [std::cerr] by a failed [TestEqual]. *)
Definition diagnostic (name expected value : string) : string :=
  "In:" +:+ name +:+ TEXT_RED +:+ ENDLINE +:+ "Expected value to be " +:+ expected
  +:+ " but it was " +:+ value +:+ ENDLINE +:+ ENDLINE.

(** The block the three overloads of [TestEqual] execute on a mismatch,
    with the two values already formatted. *)
Definition mismatch (expected value : string) : M bool :=
  name <- current_name;;
  cerr_write (diagnostic name expected value);;;
  with_self (set_failed true);;;
  cassert NDEBUG false;;;
  ret false.

Definition TestEqual_int (value expected : Z) : M bool :=
  if negb (value =? expected)%Z then mismatch (pretty expected) (pretty value)
  else ret true.

Definition TestEqual_unsigned (value expected : Z) : M bool :=
  if negb (value =? expected)%Z then mismatch (pretty expected) (pretty value)
  else ret true.

Definition TestEqual_float (value expected : float) : M bool :=
  if negb (__floatsAlmostSame value expected)
  then mismatch (show_float expected) (show_float value)
  else ret true.

(** *** Running a body *)

Fixpoint run (body : TestFunction) : M unit :=
  match body with
  | Return => ret tt
  | Call_TestTrue e k => r <- TestTrue e;; run (k r)
  | Call_TestFalse e k => r <- TestFalse e;; run (k r)
  | Call_TestEqual_int v e k => r <- TestEqual_int v e;; run (k r)
  | Call_TestEqual_unsigned v e k => r <- TestEqual_unsigned v e;; run (k r)
  | Call_TestEqual_float v e k => r <- TestEqual_float v e;; run (k r)
  | Call_GetTestNames k => w <- get;; run (k (GetTestNames (self w)))
  | Call_GetCurrentRunningTest k => w <- get;; run (k (GetCurrentRunningTest (self w)))
  | Call_GetResults k => w <- get;; run (k (GetResults (self w)))
  | Call_GetLog k => w <- get;; run (k (GetLog (self w)))
  | Call_ResetLog k => ResetLog;;; run k
  | Call_ResetFlags k => ResetFlags;;; run k
  | OutLog_insert text k => OutLog_write text;;; run k
  | OutLog_setstate_fail k =>
      with_self (fun t => set_log (stream_setstate_fail (_log t)) t);;; run k
  | Current_name k => n <- current_name;; run (k n)
  | cerr_insert text k => cerr_write text;;; run k
  | Fixture_read k => w <- get;; run (k (fixture (self w)))
  | Fixture_write f k => with_self (set_fixture f);;; run k
  end.

Definition DoWork (test : DTestCase) : M unit := run (Func test).

(** *** Declaring and running cases *)

Definition has_name (name : string) (test : DTestCase) : bool :=
  String.eqb (Name test) name.

Definition TestCase (name : string) (testFunc : TestFunction) : M unit :=
  w <- get;;
  let tests := _tests (self w) in
  cassert NDEBUG (find_if (has_name name) tests =? length tests)%nat;;;
  cassert NDEBUG (Z.of_nat (length tests) <? INT_MAX)%Z;;;
  with_self (fun t => set_tests (_tests t ++ [DTestCase_new name testFunc]) t);;;
  with_self (fun t => set_testStatus (_testStatus t ++ [NOT_TESTED]) t).

Definition RunTest (name : string) : M bool :=
  ResetFlags;;;
  w <- get;;
  let tests := _tests (self w) in
  let found := find_if (has_name name) tests in
  cassert NDEBUG (negb (found =? length tests)%nat);;;
  with_self (set_currentRunningTest (to_signed (Z.of_nat found)));;;
  test <- defined (tests !! found);;
  note_invoked found;;;
  DoWork test;;;
  w1 <- get;;
  status <- defined (vector_assign (_testStatus (self w1)) (_currentRunningTest (self w1))
                       (status_of_failed (_failed (self w1))));;
  with_self (set_testStatus status);;;
  w2 <- get;;
  ret (negb (_failed (self w2))).



(** *** The macros of the header, as bodies continued by [k] *)

Definition macro_report (macro expression : string) (line : Z) (name : string) : string :=
  "In:" +:+ name +:+ "[line " +:+ pretty line +:+ "]" +:+ " " +:+ macro +:+ "("
  +:+ expression +:+ ")" +:+ " was expected to be true but it was false" +:+ ENDLINE.

Definition TEST_TRUE_OR_QUIT (expression : bool) (text : string) (line : Z)
    (k : TestFunction) : TestFunction :=
  Call_TestTrue expression (fun r =>
    if negb r
    then Current_name (fun n =>
           cerr_insert (macro_report "TEST_TRUE_OR_QUIT" text line n) Return)
    else k).

Definition TEST_TRUE (expression : bool) (text : string) (line : Z)
    (k : TestFunction) : TestFunction :=
  Call_TestTrue expression (fun r =>
    if negb r
    then Current_name (fun n => cerr_insert (macro_report "TEST_TRUE" text line n) k)
    else k).

Definition TEST_FALSE (expression : bool) (text : string) (line : Z)
    (k : TestFunction) : TestFunction :=
  Call_TestFalse expression (fun r =>
    if r
    then Current_name (fun n => cerr_insert (macro_report "TEST_FALSE" text line n) k)
    else k).

(** ** The registry *)

(** A test class [T]: the fixture a fresh [new T] starts with, and the
    calls [TestCase(name, testFunc)] its [Define()] makes, in order. *)
Record TestClass : Type := mkClass {
  members : F;
  Define_calls : list (string * TestFunction)
}.

Fixpoint declare (calls : list (string * TestFunction)) : M unit :=
  match calls with
  | [] => ret tt
  | (name, testFunc) :: rest => TestCase name testFunc;;; declare rest
  end.

Definition Define (T : TestClass) : M unit := declare (Define_calls T).

(** [AutomationTester]: the map [_tests] from suite names to factories
    (a factory [new T] is given by its class) and the log file. *)
Record AutomationTester : Type := mkTester {
  tester_tests : list (string * TestClass);
  _outstream : ofstream
}.

(** The tester together with [std::cerr]. *)
Record Process : Type := mkProcess {
  tester : AutomationTester;
  process_cerr : string
}.

Definition Proc (A : Type) : Type := comp Process A.

Definition AddTest (T : TestClass) (testName : string) (a : AutomationTester) : AutomationTester :=
  mkTester (map_assign testName T (tester_tests a)) (_outstream a).

(** [GetOutstream() << text]: to the file when it is open, to [std::cerr]
    otherwise. *)
Definition out (text : string) : Proc unit :=
  modify (fun p =>
    let a := tester p in
    if is_open (_outstream a)
    then mkProcess (mkTester (tester_tests a)
                      (mkFile true (written (_outstream a) +:+ text))) (process_cerr p)
    else mkProcess a (process_cerr p +:+ text)).

Definition process_cerr_write (text : string) : Proc unit :=
  modify (fun p => mkProcess (tester p) (process_cerr p +:+ text)).

(** [SetupOutstream(argc, argv)], with [argc] the length of [argv];
    [can_open] tells whether the file system lets the path be opened for
    writing. *)
Definition SetupOutstream (can_open : string -> bool) (argv : list string) : Proc unit :=
  if (1 <? Z.of_nat (length argv))%Z then
    path <- defined (argv !! 1%nat);;
    modify (fun p => mkProcess (mkTester (tester_tests (tester p))
                                  (if can_open path then mkFile true ""
                                   else _outstream (tester p)))
                               (process_cerr p));;;
    p <- get;;
    if is_open (_outstream (tester p))
    then process_cerr_write ("Writing to file:" +:+ path)
    else process_cerr_write ("Could not create log with filename:" +:+ path)
  else ret tt.

Definition EndOutputStream : Proc unit :=
  modify (fun p =>
    let a := tester p in
    if is_open (_outstream a)
    then mkProcess (mkTester (tester_tests a) (mkFile false (written (_outstream a))))
                   (process_cerr p)
    else p).

Definition _resultOffset : nat := 60.

(** [std::setfill('-') << std::setw(_resultOffset) << "["] *)
Definition result_bracket : string :=
  String.string_of_list_ascii (replicate (_resultOffset - 1) (Ascii.ascii_of_nat 45)) +:+ "[".

Definition OutResult (result : bool) : Proc unit :=
  if result
  then out (result_bracket +:+ TEXT_GREEN +:+ "PASSED" +:+ TEXT_WHITE +:+ "]")
  else out (result_bracket +:+ TEXT_RED +:+ "FAILED" +:+ TEXT_WHITE +:+ "]").

(** A member function of the suite called on [testInstance] from the
    tester: what the call sends to [std::cerr] follows what the process
    has sent so far. *)
Definition on_instance {A} (testInstance : AutomatedTestInstance) (m : M A)
  : Proc (A * AutomatedTestInstance) :=
  fun p =>
    match m (mkWorld testInstance "" []) with
    | Ret a w => Ret (a, self w) (mkProcess (tester p) (process_cerr p +:+ cerr w))
    | Aborted w => Aborted (mkProcess (tester p) (process_cerr p +:+ cerr w))
    | Undefined => Undefined
    | Unfinished => Unfinished
    end.

(** The inner loop of [RunAllTests] over the names [GetTestNames()]
    returned. *)
Fixpoint run_names (names : list string) (testInstance : AutomatedTestInstance)
    (subTestNumPassed : Z) : Proc (Z * AutomatedTestInstance) :=
  match names with
  | [] => ret (subTestNumPassed, testInstance)
  | n :: names' =>
      out (TEXT_WHITE +:+ "Running:" +:+ n +:+ ENDLINE);;;
      ran <- on_instance testInstance (RunTest n);;
      let result := ran.1 in
      OutResult result;;;
      out ENDLINE;;;
      run_names names' ran.2 (to_unsigned (subTestNumPassed + of_bool result))
  end.

(** One iteration of the outer loop: the suite [newTest] is created,
    defined, run and deleted; the result tells whether it counted as
    passed. *)
Definition run_suite (newTest : string * TestClass) : Proc bool :=
  out (TEXT_WHITE +:+ ENDLINE +:+ "Begin testing:" +:+ newTest.1 +:+ ENDLINE);;;
  defined_ <- on_instance (new_instance (members newTest.2)) (Define newTest.2);;
  ran <- run_names (GetTestNames defined_.2) defined_.2 0;;
  let subTestNumPassed := ran.1 in
  let testInstance := ran.2 in
  let size := Z.of_nat (length (GetTestNames testInstance)) in
  out (TEXT_RED +:+ GetLog testInstance +:+ ENDLINE);;;
  out (TEXT_GREEN +:+ "Result completed tests [" +:+ pretty subTestNumPassed +:+ "/"
       +:+ pretty size +:+ "]" +:+ ENDLINE);;;
  out (TEXT_WHITE +:+ newTest.1 +:+ " Completed with result" +:+ ENDLINE);;;
  OutResult (subTestNumPassed =? size)%Z;;;
  out (ENDLINE +:+ ENDLINE);;;
  ret (subTestNumPassed =? size)%Z.

Fixpoint run_suites (entries : list (string * TestClass)) (testPassed : Z) : Proc Z :=
  match entries with
  | [] => ret testPassed
  | newTest :: entries' =>
      counted <- run_suite newTest;;
      run_suites entries' (to_unsigned (testPassed + of_bool counted))
  end.

Definition RunAllTests (can_open : string -> bool) (argv : list string) : Proc bool :=
  SetupOutstream can_open argv;;;
  p <- get;;
  let entries := tester_tests (tester p) in
  testPassed <- run_suites entries 0;;
  let size := Z.of_nat (length entries) in
  out (TEXT_WHITE +:+ "Testing ended with result" +:+ ENDLINE);;;
  OutResult (testPassed =? size)%Z;;;
  out ENDLINE;;;
  out TEXT_WHITE;;;
  EndOutputStream;;;
  ret (testPassed =? size)%Z.

(** [RUN_ALL_TESTS(argc, argv)] in [main]: the value returned is the
    negation of the result, converted to [int]. *)
Definition RUN_ALL_TESTS (can_open : string -> bool) (argv : list string) : Proc Z :=
  result <- RunAllTests can_open argv;;
  ret (of_bool (negb result)).

(** ** Vocabulary of the properties *)

(** Bodies that leave the bookkeeping of the runner alone: they never call
    [ResetFlags]; when [equal_allowed] is [false] they do not call
    [TestEqual] either. *)
Inductive Tame (equal_allowed : bool) : TestFunction -> Prop :=
| Tame_Return : Tame equal_allowed Return
| Tame_TestTrue e k : (forall r, Tame equal_allowed (k r)) -> Tame equal_allowed (Call_TestTrue e k)
| Tame_TestFalse e k : (forall r, Tame equal_allowed (k r)) -> Tame equal_allowed (Call_TestFalse e k)
| Tame_TestEqual_int v e k :
    equal_allowed = true -> (forall r, Tame equal_allowed (k r)) ->
    Tame equal_allowed (Call_TestEqual_int v e k)
| Tame_TestEqual_unsigned v e k :
    equal_allowed = true -> (forall r, Tame equal_allowed (k r)) ->
    Tame equal_allowed (Call_TestEqual_unsigned v e k)
| Tame_TestEqual_float v e k :
    equal_allowed = true -> (forall r, Tame equal_allowed (k r)) ->
    Tame equal_allowed (Call_TestEqual_float v e k)
| Tame_GetTestNames k : (forall r, Tame equal_allowed (k r)) -> Tame equal_allowed (Call_GetTestNames k)
| Tame_GetCurrentRunningTest k :
    (forall r, Tame equal_allowed (k r)) -> Tame equal_allowed (Call_GetCurrentRunningTest k)
| Tame_GetResults k : (forall r, Tame equal_allowed (k r)) -> Tame equal_allowed (Call_GetResults k)
| Tame_GetLog k : (forall r, Tame equal_allowed (k r)) -> Tame equal_allowed (Call_GetLog k)
| Tame_ResetLog k : Tame equal_allowed k -> Tame equal_allowed (Call_ResetLog k)
| Tame_OutLog_insert text k : Tame equal_allowed k -> Tame equal_allowed (OutLog_insert text k)
| Tame_OutLog_setstate_fail k : Tame equal_allowed k -> Tame equal_allowed (OutLog_setstate_fail k)
| Tame_Current_name k : (forall r, Tame equal_allowed (k r)) -> Tame equal_allowed (Current_name k)
| Tame_cerr_insert text k : Tame equal_allowed k -> Tame equal_allowed (cerr_insert text k)
| Tame_Fixture_read k : (forall r, Tame equal_allowed (k r)) -> Tame equal_allowed (Fixture_read k)
| Tame_Fixture_write f k : Tame equal_allowed k -> Tame equal_allowed (Fixture_write f k).

(** The two vectors of an instance stay parallel, and positions fit a
    [signed int] (what the second assertion of [TestCase] is for). *)
Definition consistent (t : AutomatedTestInstance) : Prop :=
  length (_testStatus t) = length (_tests t) /\
  (Z.of_nat (length (_tests t)) <= INT_MAX)%Z.


(** The world in which [RunTest] starts the body of the case at position
    [i]: flags reset, then the index set. *)
Definition entered (i : nat) (w : World) : World :=
  mkWorld (set_currentRunningTest (Z.of_nat i) (set_failed false (self w)))
          (cerr w) (invoked w ++ [i]).


(** The world a failed [TestEqual] leaves: the diagnostic on [std::cerr]
    and the flag set. *)
Definition mismatch_reported (name expected value : string) (w : World) : World :=
  mkWorld (set_failed true (self w)) (cerr w +:+ diagnostic name expected value) (invoked w).

(** The results of the cases of a suite, run by name one after the other
    as the tester runs them; [None] when a run does not return. *)
Fixpoint case_results (names : list string) (t : AutomatedTestInstance) : option (list bool) :=
  match names with
  | [] => Some []
  | n :: names' =>
      match RunTest n (mkWorld t "" []) with
      | Ret r w =>
          match case_results names' (self w) with
          | Some rs => Some (r :: rs)
          | None => None
          end
      | _ => None
      end
  end.

Definition suite_results (T : TestClass) : option (list bool) :=
  match Define T (mkWorld (new_instance (members T)) "" []) with
  | Ret _ w => case_results (GetTestNames (self w)) (self w)
  | _ => None
  end.

Definition passedCount (results : list bool) : nat :=
  length (filter (fun r => r = true) results).

Definition totalCount (results : list bool) : nat := length results.

(** A suite passed fully: all its cases ran and as many passed as there
    are. *)
Definition fully_passed (T : TestClass) : Prop :=
  exists results, suite_results T = Some results /\ passedCount results = totalCount results.

(** A case is running: the index names a declared case. *)
Definition case_running (w : World) : Prop :=
  is_Some (vector_at (GetTestNames (self w)) (GetCurrentRunningTest (self w))).

(** [w] differs from [w0] by what assertions, logging and the fixture may
    change only: same cases, same recorded outcomes, same history of calls,
    same index, and a flag once set stays set. *)
Definition undisturbed (w0 w : World) : Prop :=
  _tests (self w) = _tests (self w0) /\
  _testStatus (self w) = _testStatus (self w0) /\
  invoked w = invoked w0 /\
  _currentRunningTest (self w) = _currentRunningTest (self w0) /\
  (_failed (self w0) = true -> _failed (self w) = true).

(** The weaker relation every body satisfies, [ResetFlags] included. *)
Definition same_cases (w0 w : World) : Prop :=
  _tests (self w) = _tests (self w0) /\
  _testStatus (self w) = _testStatus (self w0) /\
  invoked w = invoked w0.

(** A property of each kind of result. *)
Definition post {S A} (returned : A -> S -> Prop) (aborted : S -> Prop) (otherwise : Prop)
    (o : outcome S A) : Prop :=
  match o with
  | Ret a s => returned a s
  | Aborted s => aborted s
  | Undefined => otherwise
  | Unfinished => otherwise
  end.

(** The world after [TestCase(name, testFunc)] has added the case. *)
Definition case_added (name : string) (testFunc : TestFunction) (w : World) : World :=
  mkWorld (set_testStatus (_testStatus (self w) ++ [NOT_TESTED])
             (set_tests (_tests (self w) ++ [DTestCase_new name testFunc]) (self w)))
          (cerr w) (invoked w).


(** A class whose [Define()] is in order: names that are C strings and
    distinct, at most [INT_MAX] cases, tame bodies. *)
Definition orderly (equal_allowed : bool) (T : TestClass) : Prop :=
  Forall (fun name => c_str name = name) (Define_calls T).*1 /\
  NoDup (Define_calls T).*1 /\
  (Z.of_nat (length (Define_calls T)) <= INT_MAX)%Z /\
  Forall (fun c => Tame equal_allowed c.2) (Define_calls T).

(** The singleton of [GetInstance()] when first used: the function-local
    static is default constructed, with no entry and the stream closed. *)
Definition GetInstance_initial : AutomationTester := mkTester [] (mkFile false "").

(** [TestInserter<T>(className)]: the constructor registers [T] under
    [className] in the singleton. *)
Definition TestInserter (T : TestClass) (className : string) (instance : AutomationTester)
  : AutomationTester :=
  AddTest T className instance.

(** The static inserters of a program ([ADD_TEST], [TEST_END_CLASS]),
    constructed one after the other in the order of the list. *)
Fixpoint run_inserters (inserters : list (string * TestClass)) (instance : AutomationTester)
  : AutomationTester :=
  match inserters with
  | [] => instance
  | (className, T) :: rest => run_inserters rest (TestInserter T className instance)
  end.

(** [s'] is [s] with text added at its end. *)
Definition extends (s s' : string) : Prop := exists added, s' = s +:+ added.

(** Nothing of what was sent to [std::cerr] or written to the log is
    lost between [w0] and [w]. *)
Definition output_kept (w0 w : World) : Prop :=
  extends (cerr w0) (cerr w) /\ extends (GetLog (self w0)) (GetLog (self w)).

(** The world after a macro has set the flag and sent its report. *)
Definition macro_reported (macro text : string) (line : Z) (name : string) (w : World) : World :=
  mkWorld (set_failed true (self w)) (cerr w +:+ macro_report macro text line name) (invoked w).

(** Between [p0] and [p] the registry is the same, the log file has not
    been opened or closed, a closed file is untouched, and text was only
    added to the file and to [std::cerr]. *)
Definition tester_kept (p0 p : Process) : Prop :=
  tester_tests (tester p) = tester_tests (tester p0) /\
  is_open (_outstream (tester p)) = is_open (_outstream (tester p0)) /\
  (is_open (_outstream (tester p0)) = false ->
     _outstream (tester p) = _outstream (tester p0)) /\
  extends (written (_outstream (tester p0))) (written (_outstream (tester p))) /\
  extends (process_cerr p0) (process_cerr p).

(** *** The run of a suite, following the spec *)



(** *** Points of a run *)





End Suite.

(** ** Concrete suites and values *)

(** A suite with the single case ["a"], whose body is empty. *)
Definition one_case : list (string * TestFunction (F := unit)) := [("a", Return)].

(** An instance with the case ["a"] declared, before any run. *)
Definition declared_a : AutomatedTestInstance (F := unit) :=
  mkInstance [mkCase "a" Return] [NOT_TESTED] false stream_empty (-1) tt.

(** The same instance while the body of ["a"] executes. *)
Definition running_a : World (F := unit) :=
  mkWorld (mkInstance [mkCase "a" Return] [NOT_TESTED] false stream_empty 0 tt) "" [].

Definition show_nothing (x : float) : string := "".

(** The [float] literals [1.0f], [1.0000001f], [1.1f], [0.0f] and
    [0.0000001f]. *)
Definition f_1_0 : float := float_of_ratio 1 1.
Definition f_1_0000001 : float := float_of_ratio 10000001 10000000.
Definition f_1_1 : float := float_of_ratio 11 10.
Definition f_0_0 : float := S754_zero false.
Definition f_0_0000001 : float := float_of_ratio 1 10000000.

(** A tester with the suites ["A"] and ["B"] registered. *)
Definition tester_AB : AutomationTester (F := unit) :=
  AddTest (mkClass tt one_case) "B"
    (AddTest (mkClass tt one_case) "A" (mkTester [] (mkFile false ""))).

(** A class to register over ["A"]. *)
Definition other_class : TestClass (F := unit) :=
  mkClass tt [("x", Call_TestTrue false (fun _ => Return))].


(** The instance with these two cases declared, before any run. *)
Definition declared_ab : AutomatedTestInstance (F := unit) :=
  mkInstance [mkCase "a" (Call_TestEqual_int 5 6 (fun _ => Return));
              mkCase "b" (Call_TestTrue true (fun _ => Return))]
             [NOT_TESTED; NOT_TESTED] false stream_empty (-1) tt.

Definition world_ab : World (F := unit) := mkWorld declared_ab "" [].

(** Three suites: in [suite_A] both cases pass, in [suite_B] one of two,
    in [suite_C] none of one. *)
Definition suite_A : TestClass (F := unit) :=
  mkClass tt [("a1", Call_TestTrue true (fun _ => Return)); ("a2", Return)].

Definition suite_B : TestClass (F := unit) :=
  mkClass tt [("b1", Return); ("b2", Call_TestTrue false (fun _ => Return))].

Definition suite_C : TestClass (F := unit) :=
  mkClass tt [("c1", Call_TestFalse true (fun _ => Return))].

Definition process_ABC : Process (F := unit) :=
  mkProcess (AddTest suite_C "C" (AddTest suite_B "B" (AddTest suite_A "A"
               (mkTester [] (mkFile false ""))))) "".

(** No file can be opened. *)
Definition no_file (path : string) : bool := false.

(** The name ["a"] followed by a NUL character and ["b"]. *)
Definition name_a_NUL_b : string := "a" +:+ String Ascii.zero "b".

(** An instance with the single case ["r"], whose body calls
    [ResetFlags()]. *)
Definition declared_r : AutomatedTestInstance (F := unit) :=
  mkInstance [mkCase "r" (Call_ResetFlags Return)] [NOT_TESTED] false stream_empty (-1) tt.






(** * Properties *)

Section Properties.

Context {F : Type} (NDEBUG : bool) (show_float : float -> string).

Implicit Types (w : World (F := F)) (t : AutomatedTestInstance (F := F)).
Implicit Types (body : TestFunction (F := F)) (name : string).

(** ** The log *)

(** C10. [ResetLog] returns and leaves the text of the log as it was:
    [GetLog] gives the same string before and after the call; the only
    thing [clear()] touches is the state of the stream, which is good
    afterwards. *)
Theorem ResetLog_keeps_text w :
  exists w', ResetLog w = Ret tt w' /\
    GetLog (self w') = GetLog (self w) /\
    good (_log (self w')) = true /\
    set_log (_log (self w)) (self w') = self w /\
    cerr w' = cerr w.
Proof.
  eexists. split; [reflexivity|]. cbn. destruct w as [[? ? ? [? ?] ? ?] ? ?].
  repeat split.
Qed.

(** ** [GetResult] *)

Lemma GetResult_from_declared name status (tests : list (DTestCase (F := F))) (i : Z) :
  (0 <= i)%Z ->
  (i + Z.of_nat (length tests) <= Z.of_nat (length status))%Z ->
  (i + Z.of_nat (length tests) <= INT_MAX)%Z ->
  is_Some (GetResult_from name status tests i) <-> name ∈ map Name tests.
Proof.
  revert i. induction tests as [|test rest IH]; intros i Hi Hlen Hmax; cbn [GetResult_from map].
  - split; [intros [? H]; discriminate | intros H; inversion H].
  - cbn [length] in Hlen, Hmax. destruct (String.eqb_spec (Name test) name) as [Heq|Hne].
    + split; [intros _; subst; left|intros _].
      unfold vector_at. destruct (Z.leb_spec 0 i); [|lia].
      apply lookup_lt_is_Some. lia.
    + destruct (Z.eqb_spec i INT_MAX) as [Heq|_]; [lia|].
      rewrite IH by lia. split; [intros H; by right|].
      intros H. inversion H; subst; [congruence|done].
Qed.

(** C9. For an instance whose two vectors are parallel and within
    [INT_MAX] (every instance built by [TestCase] is), [GetResult] has a
    value exactly for the declared names: for any other name the loop ends
    and the function is left without a [return]. *)
Theorem GetResult_defined_iff_declared t name :
  consistent t ->
  is_Some (GetResult t name) <-> name ∈ GetTestNames t.
Proof.
  intros [Hlen Hmax]. unfold GetResult, GetTestNames.
  apply GetResult_from_declared; lia.
Qed.

(** ** The map of the registry *)

Section MapFacts.

Context {V : Type}.
Implicit Types (m : list (string * V)) (k : string) (v : V).

Lemma ltb_irrefl k : String.ltb k k = false.
Proof.
  unfold String.ltb.
  pose proof (proj2 (OrderedTypeEx.String_as_OT.cmp_eq k k) eq_refl) as H.
  unfold OrderedTypeEx.String_as_OT.cmp in H. by rewrite H.
Qed.

Lemma ltb_trans k1 k2 k3 :
  String.ltb k1 k2 = true -> String.ltb k2 k3 = true -> String.ltb k1 k3 = true.
Proof.
  unfold String.ltb. intros H12 H23.
  destruct (String.compare k1 k2) eqn:E12; try discriminate.
  destruct (String.compare k2 k3) eqn:E23; try discriminate.
  apply OrderedTypeEx.String_as_OT.cmp_lt in E12, E23.
  pose proof (OrderedTypeEx.String_as_OT.lt_trans _ _ _ E12 E23) as H13.
  apply OrderedTypeEx.String_as_OT.cmp_lt in H13.
  unfold OrderedTypeEx.String_as_OT.cmp in H13. by rewrite H13.
Qed.

Lemma map_find_assign_eq k v m : map_find k (map_assign k v m) = Some v.
Proof.
  induction m as [|[k' v'] m IH]; cbn.
  - by rewrite String.eqb_refl.
  - destruct (String.ltb k k'); cbn; [by rewrite String.eqb_refl|].
    destruct (String.eqb k k') eqn:E; cbn; [by rewrite String.eqb_refl|].
    by rewrite E.
Qed.

Lemma map_find_assign_ne k k' v m :
  k' <> k -> map_find k' (map_assign k v m) = map_find k' m.
Proof.
  intros Hne. apply String.eqb_neq in Hne.
  induction m as [|[k0 v0] m IH]; cbn.
  - by rewrite Hne.
  - destruct (String.ltb k k0); cbn; [by rewrite Hne|].
    destruct (String.eqb_spec k k0) as [->|Hk]; cbn; [by rewrite Hne|].
    by rewrite IH.
Qed.

(** In an ordered map every key after the first is above the first. *)
Lemma map_ordered_above k0 v0 m k :
  map_ordered ((k0, v0) :: m) = true -> is_Some (map_find k m) -> String.ltb k0 k = true.
Proof.
  revert k0 v0. induction m as [|[k1 v1] m IH]; intros k0 v0 Hord [v Hv]; [discriminate|].
  cbn [map_ordered] in Hord. apply andb_prop in Hord as [H01 Hord].
  cbn [map_find] in Hv. destruct (String.eqb_spec k k1) as [->|Hne]; [done|].
  eapply ltb_trans; [exact H01|]. apply (IH k1 v1); [exact Hord|by exists v].
Qed.

Lemma map_ordered_tail k0 v0 m : map_ordered ((k0, v0) :: m) = true -> map_ordered m = true.
Proof.
  destruct m as [|[k1 v1] m]; [done|]. cbn [map_ordered].
  intros H. by apply andb_prop in H as [_ H].
Qed.

Lemma map_assign_keys k v m :
  map_ordered m = true -> is_Some (map_find k m) ->
  map fst (map_assign k v m) = map fst m.
Proof.
  induction m as [|[k0 v0] m IH]; intros Hord Hin; [by destruct Hin|].
  cbn [map_assign]. destruct (String.ltb k k0) eqn:Hlt.
  - exfalso. cbn [map_find] in Hin.
    destruct (String.eqb_spec k k0) as [->|Hne]; [by rewrite ltb_irrefl in Hlt|].
    pose proof (map_ordered_above _ _ _ _ Hord Hin) as H0.
    pose proof (ltb_trans _ _ _ Hlt H0) as Hkk. by rewrite ltb_irrefl in Hkk.
  - cbn [map_find] in Hin. destruct (String.eqb_spec k k0) as [->|Hne]; [done|].
    cbn [map fst]. f_equal. apply IH; [by eapply map_ordered_tail|done].
Qed.

Lemma map_assign_ordered k v m : map_ordered m = true -> map_ordered (map_assign k v m) = true.
Proof.
  induction m as [|[k0 v0] m IH]; intros Hord; [done|].
  cbn [map_assign]. destruct (String.ltb k k0) eqn:Hlt.
  - cbn [map_ordered]. by rewrite Hlt.
  - destruct (String.eqb_spec k k0) as [->|Hne]; [exact Hord|].
    assert (String.ltb k0 k = true) as Hgt.
    { unfold String.ltb in *. rewrite String.compare_antisym.
      destruct (String.compare k k0) eqn:E; try done.
      apply String.compare_eq_iff in E. done. }
    specialize (IH (map_ordered_tail _ _ _ Hord)).
    destruct m as [|[k1 v1] m]; cbn [map_assign map_ordered] in *.
    + by rewrite Hgt.
    + apply andb_prop in Hord as [H01 Hord].
      destruct (String.ltb k k1) eqn:Hlt1.
      * cbn [map_ordered]. by rewrite Hgt, Hlt1, Hord.
      * destruct (String.eqb_spec k k1) as [->|Hne1]; cbn [map_ordered] in *.
        -- by rewrite H01.
        -- by rewrite H01.
Qed.

End MapFacts.

(** ** Registration *)

(** C7. When [testName] is already registered, [AddTest] with that name
    stores the new factory under it without any report: afterwards the
    name maps to the new class, every other name maps to what it mapped
    to before, the names and their order are the same (no entry added or
    removed), the map is still ordered and the log file is untouched. *)
Theorem AddTest_overwrites (T : TestClass (F := F)) (testName : string) (a : AutomationTester (F := F)) :
  map_ordered (tester_tests a) = true ->
  is_Some (map_find testName (tester_tests a)) ->
  map_find testName (tester_tests (AddTest T testName a)) = Some T /\
  (forall other, other <> testName ->
     map_find other (tester_tests (AddTest T testName a)) = map_find other (tester_tests a)) /\
  map fst (tester_tests (AddTest T testName a)) = map fst (tester_tests a) /\
  map_ordered (tester_tests (AddTest T testName a)) = true /\
  _outstream (AddTest T testName a) = _outstream a.
Proof.
  intros Hord Hin. cbn [AddTest tester_tests _outstream].
  split; [apply map_find_assign_eq|].
  split; [intros other Hne; by apply map_find_assign_ne|].
  split; [by apply map_assign_keys|].
  split; [by apply map_assign_ordered|done].
Qed.

(** ** The assertion engine *)

Lemma mismatch_result w name expected value :
  vector_at (GetTestNames (self w)) (GetCurrentRunningTest (self w)) = Some name ->
  mismatch NDEBUG expected value w =
    if NDEBUG then Ret false (mismatch_reported name expected value w)
    else Aborted (mismatch_reported name expected value w).
Proof.
  intros Hname. unfold mismatch, current_name, bind, get. rewrite Hname. cbn.
  unfold cassert. by destruct NDEBUG.
Qed.

(** C4, as the code has it. While a case runs (the index names a declared
    case), a mismatch in any of the three overloads of [TestEqual] sets
    [_failed] and sends one diagnostic to [std::cerr], made of the name of
    the running case, the expected and the actual value; the log buffer of
    the suite, the text [GetLog] returns, is not written to. The call then
    returns [false] when assertions are compiled out and stops at
    [assert(false)] otherwise. *)
Theorem TestEqual_mismatch_reports_on_cerr w name :
  vector_at (GetTestNames (self w)) (GetCurrentRunningTest (self w)) = Some name ->
  (forall value expected : Z, value <> expected ->
     let w' := mismatch_reported name (pretty expected) (pretty value) w in
     TestEqual_int NDEBUG value expected w = (if NDEBUG then Ret false w' else Aborted w') /\
     TestEqual_unsigned NDEBUG value expected w = (if NDEBUG then Ret false w' else Aborted w')) /\
  (forall value expected : float, __floatsAlmostSame value expected = false ->
     let w' := mismatch_reported name (show_float expected) (show_float value) w in
     TestEqual_float NDEBUG show_float value expected w =
       (if NDEBUG then Ret false w' else Aborted w')) /\
  (forall expected value : string,
     let w' := mismatch_reported name expected value w in
     _failed (self w') = true /\
     GetLog (self w') = GetLog (self w) /\
     _log (self w') = _log (self w) /\
     cerr w' = cerr w +:+ "In:" +:+ name +:+ TEXT_RED +:+ ENDLINE +:+ "Expected value to be "
               +:+ expected +:+ " but it was " +:+ value +:+ ENDLINE +:+ ENDLINE).
Proof.
  intros Hname. split; [|split].
  - intros value expected Hne w'. unfold TestEqual_int, TestEqual_unsigned.
    apply Z.eqb_neq in Hne. rewrite Hne. cbn [negb].
    split; by apply mismatch_result.
  - intros value expected Hne w'. unfold TestEqual_float. rewrite Hne. cbn [negb].
    by apply mismatch_result.
  - intros expected value w'. repeat split.
Qed.

(** C8, as the code has it. [TestEqual] on [float] passes exactly when
    [__floatsAlmostSame] holds, that is when the binary32 value of
    |value - expected| is strictly below the fixed [FLT_EPSILON] = 2^-23,
    the gap between [1.0f] and the next [float]. The literal [1.0000001f]
    is that next [float], 1 + 2^-23, so its distance to [1.0f] is the
    epsilon itself and the comparison fails, as it does for [1.1f];
    [0.0000001f] against [0.0f], and equal values, pass. *)
Theorem TestEqual_float_threshold :
  (forall (value expected : float) w,
     TestEqual_float NDEBUG show_float value expected w =
       if __floatsAlmostSame value expected then Ret true w
       else mismatch NDEBUG (show_float expected) (show_float value) w) /\
  (forall a b : float,
     __floatsAlmostSame a b = SFltb (SFabs (SFsub 24 128 a b)) float_epsilon) /\
  float_epsilon = SFulp 24 128 f_1_0 /\
  f_1_0 = S754_finite false 8388608 (-23) /\
  f_1_0000001 = S754_finite false 8388609 (-23) /\
  f_1_1 = S754_finite false 9227469 (-23) /\
  f_1_0000001 = SFsucc 24 128 f_1_0 /\
  SFabs (SFsub 24 128 f_1_0000001 f_1_0) = float_epsilon /\
  __floatsAlmostSame f_1_0000001 f_1_0 = false /\
  __floatsAlmostSame f_1_1 f_1_0 = false /\
  __floatsAlmostSame f_0_0000001 f_0_0 = true /\
  __floatsAlmostSame f_1_0 f_1_0 = true.
Proof.
  split.
  { intros value expected w. unfold TestEqual_float.
    by destruct (__floatsAlmostSame value expected). }
  split; [reflexivity|].
  repeat split; vm_compute; reflexivity.
Qed.

(** ** Running one case *)

Lemma vector_assign_Some {A} (v v' : list A) (i : Z) (x : A) :
  vector_assign v i x = Some v' ->
  (0 <= i < Z.of_nat (length v))%Z /\ v' = <[Z.to_nat i := x]> v.
Proof.
  unfold vector_assign. intros H.
  destruct (Z.leb_spec 0 i), (Z.ltb_spec i (Z.of_nat (length v)));
    cbn in H; try discriminate.
  split; [lia|congruence].
Qed.

(** C6 fails on the code, and this is how: whenever [RunTest] returns, it
    leaves [_currentRunningTest] at the position of the case that ran, so
    [GetCurrentRunningTest] is non-negative (not -1) although no body is
    executing any more. *)
Theorem RunTest_leaves_index_set w name b w' :
  RunTest NDEBUG show_float name w = Ret b w' ->
  (0 <= GetCurrentRunningTest (self w'))%Z /\ GetCurrentRunningTest (self w') <> (-1)%Z.
Proof.
  unfold RunTest, bind, get, ResetFlags, with_self, modify, note_invoked, defined, ret, undefined.
  cbn -[run to_signed]. intros H.
  repeat (case_match; try discriminate).
  injection H as _ <-. cbn.
  match goal with
  | Ha : vector_assign _ _ _ = Some _ |- _ => apply vector_assign_Some in Ha as [? _]
  end.
  simplify_eq. unfold GetCurrentRunningTest. lia.
Qed.

(** ** What a body can and cannot do *)

Lemma post_impl {S A} (o : outcome S A) (r r' : A -> S -> Prop) (a a' : S -> Prop) (u u' : Prop) :
  post r a u o -> (forall x s, r x s -> r' x s) -> (forall s, a s -> a' s) -> (u -> u') ->
  post r' a' u' o.
Proof. destruct o; cbn; auto. Qed.

Lemma undisturbed_refl w : undisturbed w w.
Proof. by repeat split. Qed.

Lemma undisturbed_running w0 w : undisturbed w0 w -> case_running w0 -> case_running w.
Proof.
  intros (Ht & _ & _ & Hi & _). unfold case_running, GetTestNames, GetCurrentRunningTest.
  by rewrite Ht, Hi.
Qed.

Ltac crush_frame :=
  unfold undisturbed, same_cases in *; cbn in *; intuition congruence.

(** A body that is tame, started while a case runs, neither disturbs the
    runner nor runs into undefined behaviour; it can stop the process only
    through a failed [TestEqual] with assertions enabled. *)
Lemma run_tame equal_allowed body :
  Tame equal_allowed body ->
  forall w0 w, case_running w0 -> undisturbed w0 w ->
  post (fun _ w' => undisturbed w0 w')
       (fun w' => undisturbed w0 w' /\ NDEBUG = false /\ equal_allowed = true
                  /\ _failed (self w') = true)
       False
       (run NDEBUG show_float body w).
Proof.
  induction 1 as [ | e k _ IH | e k _ IH | v e k Hok _ IH | v e k Hok _ IH | v e k Hok _ IH
                 | k _ IH | k _ IH | k _ IH | k _ IH | k _ IH | text k _ IH | k _ IH
                 | k _ IH | text k _ IH | k _ IH | f k _ IH ];
    intros w0 w Hrun Hw; cbn [run].
  - exact Hw.
  - unfold bind, TestTrue, with_self, modify, ret. destruct e; cbn; apply IH; auto; crush_frame.
  - unfold bind, TestFalse, with_self, modify, ret. destruct e; cbn; apply IH; auto; crush_frame.
  - unfold bind at 1, TestEqual_int. destruct (negb (v =? e)%Z); [|apply IH; auto].
    destruct (undisturbed_running _ _ Hw Hrun) as [name Hname].
    rewrite (mismatch_result _ name) by exact Hname.
    destruct NDEBUG; cbn; [apply IH; auto; crush_frame|]. repeat split; crush_frame.
  - unfold bind at 1, TestEqual_unsigned. destruct (negb (v =? e)%Z); [|apply IH; auto].
    destruct (undisturbed_running _ _ Hw Hrun) as [name Hname].
    rewrite (mismatch_result _ name) by exact Hname.
    destruct NDEBUG; cbn; [apply IH; auto; crush_frame|]. repeat split; crush_frame.
  - unfold bind at 1, TestEqual_float. destruct (negb (__floatsAlmostSame v e)); [|apply IH; auto].
    destruct (undisturbed_running _ _ Hw Hrun) as [name Hname].
    rewrite (mismatch_result _ name) by exact Hname.
    destruct NDEBUG; cbn; [apply IH; auto; crush_frame|]. repeat split; crush_frame.
  - unfold bind, get. apply IH; auto.
  - unfold bind, get. apply IH; auto.
  - unfold bind, get. apply IH; auto.
  - unfold bind, get. apply IH; auto.
  - unfold bind, ResetLog, with_self, modify. apply IH; auto; crush_frame.
  - unfold bind, OutLog_write, with_self, modify. apply IH; auto; crush_frame.
  - unfold bind, with_self, modify. apply IH; auto; crush_frame.
  - unfold bind at 1, current_name, bind, get, defined.
    destruct (undisturbed_running _ _ Hw Hrun) as [name Hname]. rewrite Hname. cbn.
    apply IH; auto.
  - unfold bind, cerr_write, modify. apply IH; auto; crush_frame.
  - unfold bind, get. apply IH; auto.
  - unfold bind, with_self, modify. apply IH; auto; crush_frame.
Qed.

(** No body at all, tame or not, changes the declared cases, the recorded
    outcomes or the history of calls. *)
Lemma run_same_cases body :
  forall w0 w, same_cases w0 w ->
  post (fun _ w' => same_cases w0 w') (fun w' => same_cases w0 w') True
       (run NDEBUG show_float body w).
Proof.
  assert (forall expected value w0 w (k : bool -> comp World unit),
    same_cases w0 w ->
    (forall r w1, same_cases w0 w1 ->
       post (fun _ w' => same_cases w0 w') (fun w' => same_cases w0 w') True (k r w1)) ->
    post (fun _ w' => same_cases w0 w') (fun w' => same_cases w0 w') True
         (bind (mismatch NDEBUG expected value) k w)) as Hmis.
  { intros expected value w0 w k Hw Hk.
    unfold bind at 1, mismatch, bind, current_name, bind, get, defined, cerr_write, with_self,
      modify, cassert, ret, undefined.
    destruct (vector_at _ _); cbn; [|done].
    destruct NDEBUG; cbn; [apply Hk|]; crush_frame. }
  induction body as [ | e k IH | e k IH | v e k IH | v e k IH | v e k IH
                    | k IH | k IH | k IH | k IH | k IH | k IH | text k IH | k IH
                    | k IH | text k IH | k IH | f k IH ];
    intros w0 w Hw; cbn [run].
  - exact Hw.
  - unfold bind, TestTrue, with_self, modify, ret. destruct e; cbn; apply IH; crush_frame.
  - unfold bind, TestFalse, with_self, modify, ret. destruct e; cbn; apply IH; crush_frame.
  - unfold TestEqual_int. destruct (negb (v =? e)%Z);
      [apply Hmis; [done|intros; by apply IH]|unfold bind, ret; by apply IH].
  - unfold TestEqual_unsigned. destruct (negb (v =? e)%Z);
      [apply Hmis; [done|intros; by apply IH]|unfold bind, ret; by apply IH].
  - unfold TestEqual_float. destruct (negb (__floatsAlmostSame v e));
      [apply Hmis; [done|intros; by apply IH]|unfold bind, ret; by apply IH].
  - unfold bind, get. by apply IH.
  - unfold bind, get. by apply IH.
  - unfold bind, get. by apply IH.
  - unfold bind, get. by apply IH.
  - unfold bind, ResetLog, with_self, modify. apply IH; crush_frame.
  - unfold bind, ResetFlags, bind, with_self, modify. cbn. apply IH; crush_frame.
  - unfold bind, OutLog_write, with_self, modify. apply IH; crush_frame.
  - unfold bind, with_self, modify. apply IH; crush_frame.
  - unfold bind at 1, current_name, bind, get, defined, ret, undefined.
    destruct (vector_at _ _); cbn; [by apply IH|done].
  - unfold bind, cerr_write, modify. apply IH; crush_frame.
  - unfold bind, get. by apply IH.
  - unfold bind, with_self, modify. apply IH; crush_frame.
Qed.

(** ** Looking a case up by name *)

Lemma find_if_absent name (tests : list (DTestCase (F := F))) :
  name ∉ map Name tests -> find_if (has_name name) tests = length tests.
Proof.
  induction tests as [|test rest IH]; intros Hnot; cbn; [done|].
  unfold has_name at 1. destruct (String.eqb_spec (Name test) name) as [Heq|Hne].
  - exfalso. apply Hnot. cbn. rewrite Heq. left.
  - f_equal. apply IH. intros Hin. apply Hnot. cbn. by right.
Qed.

Lemma find_if_NoDup (tests : list (DTestCase (F := F))) i test :
  NoDup (map Name tests) -> tests !! i = Some test ->
  find_if (has_name (Name test)) tests = i.
Proof.
  revert i. induction tests as [|t0 rest IH]; intros i Hnd Hi; [done|].
  cbn [map] in Hnd. apply NoDup_cons in Hnd as [Hnotin Hnd]. cbn [find_if].
  unfold has_name at 1. destruct i as [|i]; cbn in Hi.
  - injection Hi as ->. by rewrite String.eqb_refl.
  - destruct (String.eqb_spec (Name t0) (Name test)) as [Heq|Hne].
    + exfalso. apply Hnotin. rewrite Heq. apply list_elem_of_fmap. exists test.
      split; [done|]. by eapply list_elem_of_lookup_2.
    + f_equal. by apply IH.
Qed.

Lemma to_signed_small (z : Z) : (0 <= z <= INT_MAX)%Z -> to_signed z = z.
Proof.
  unfold to_signed, INT_MAX. intros H.
  rewrite Z.mod_small by lia. lia.
Qed.


(** [RunTest] on the name found at position [i]: the body of that case is
    run from the entered world, then the outcome is stored where the index
    points. *)
Lemma RunTest_found w name i test :
  (Z.of_nat (length (_tests (self w))) <= INT_MAX)%Z ->
  find_if (has_name name) (_tests (self w)) = i ->
  _tests (self w) !! i = Some test ->
  RunTest NDEBUG show_float name w =
    match run NDEBUG show_float (Func test) (entered i w) with
    | Ret _ w2 =>
        match vector_assign (_testStatus (self w2)) (_currentRunningTest (self w2))
                (status_of_failed (_failed (self w2))) with
        | Some status =>
            Ret (negb (_failed (self w2)))
                (mkWorld (set_testStatus status (self w2)) (cerr w2) (invoked w2))
        | None => Undefined
        end
    | Aborted w2 => Aborted w2
    | Undefined => Undefined
    | Unfinished => Unfinished
    end.
Proof.
  intros Hmax Hfind Hi.
  pose proof (lookup_lt_Some _ _ _ Hi) as Hlt.
  unfold RunTest. unfold bind at 1, ResetFlags, bind, with_self, modify, get. cbn -[to_signed].
  rewrite Hfind. unfold cassert.
  replace (negb (i =? length (_tests (self w)))) with true
    by (symmetry; apply negb_true_iff, Nat.eqb_neq; lia).
  rewrite to_signed_small by lia.
  rewrite Hi. cbn.
  assert (forall A (c : bool) (x : A), (if c then x else x) = x) as Hif by (by intros ? []).
  rewrite Hif. unfold note_invoked, modify, DoWork, entered. cbn.
  destruct (run NDEBUG show_float (Func test) _) as [[] w2|w2| |]; try reflexivity.
  unfold defined. destruct (vector_assign _ _ _); reflexivity.
Qed.

Lemma GetResult_from_found name status (tests : list (DTestCase (F := F))) (j : Z) :
  name ∈ map Name tests ->
  (j + Z.of_nat (length tests) <= INT_MAX)%Z ->
  GetResult_from name status tests j =
    vector_at status (j + Z.of_nat (find_if (has_name name) tests)).
Proof.
  revert j. induction tests as [|test rest IH]; intros j Hin Hmax; [inversion Hin|].
  cbn [GetResult_from find_if]. unfold has_name at 1. cbn [length] in Hmax.
  destruct (String.eqb_spec (Name test) name) as [Heq|Hne].
  - f_equal. lia.
  - assert (name ∈ map Name rest) as Hin'
      by (cbn in Hin; inversion Hin; subst; [congruence|done]).
    destruct rest as [|test' rest]; [inversion Hin'|]. cbn [length] in Hmax.
    destruct (Z.eqb_spec j INT_MAX) as [Heq|_]; [lia|].
    rewrite IH; [f_equal; lia|done|cbn [length]; lia].
Qed.



(** ** Running every case *)

(** One call of [RunTest] on a declared case with a tame body: it returns
    unless a failed [TestEqual] stops the process, the case at position
    [i] was invoked, and only its outcome changed. *)
Lemma RunTest_tame equal_allowed w (i : nat) (test : DTestCase (F := F)) :
  consistent (self w) ->
  NoDup (GetTestNames (self w)) ->
  _tests (self w) !! i = Some test ->
  Tame equal_allowed (Func test) ->
  post (fun (r : bool) w' =>
          _tests (self w') = _tests (self w) /\
          _testStatus (self w') = <[i := if r then PASSED else FAILED]> (_testStatus (self w)) /\
          invoked w' = invoked w ++ [i])
       (fun w' => NDEBUG = false /\ equal_allowed = true /\ invoked w' = invoked w ++ [i])
       False
       (RunTest NDEBUG show_float (Name test) w).
Proof.
  intros [Hlen Hmax] Hnd Hi Htame.
  pose proof (find_if_NoDup _ _ _ Hnd Hi) as Hfind.
  pose proof (lookup_lt_Some _ _ _ Hi) as Hlt.
  rewrite (RunTest_found w (Name test) i test Hmax Hfind Hi).
  assert (case_running (entered i w)) as Hrun.
  { unfold case_running, GetTestNames, GetCurrentRunningTest, vector_at. cbn.
    destruct (Z.leb_spec 0 (Z.of_nat i)); [|lia].
    rewrite Nat2Z.id, list_lookup_fmap, Hi. by eexists. }
  pose proof (run_tame equal_allowed (Func test) Htame _ _ Hrun (undisturbed_refl _)) as Hpost.
  destruct (run NDEBUG show_float (Func test) (entered i w)) as [[] w2|w2| |]; cbn in Hpost;
    [|by destruct Hpost as ((_ & _ & ? & _) & ? & ? & _)|done|done].
  destruct Hpost as (Htests & Hstat & Hinv & Hidx & _). cbn in Htests, Hstat, Hinv, Hidx.
  rewrite Hidx. unfold vector_assign.
  destruct (Z.leb_spec 0 (Z.of_nat i)); [|lia].
  destruct (Z.ltb_spec (Z.of_nat i) (Z.of_nat (length (_testStatus (self w2))))) as [_|Hge];
    [|rewrite Hstat in Hge; lia].
  cbn. rewrite Nat2Z.id, Hstat. repeat split; try done.
  by destruct (_failed (self w2)).
Qed.



(** ** Declaring cases *)

Lemma TestCase_result w name (testFunc : TestFunction (F := F)) :
  TestCase NDEBUG name testFunc w =
    if NDEBUG || ((find_if (has_name name) (_tests (self w)) =? length (_tests (self w)))
                  && (Z.of_nat (length (_tests (self w))) <? INT_MAX)%Z)
    then Ret tt (case_added name testFunc w)
    else Aborted w.
Proof.
  unfold TestCase, bind, get, cassert, with_self, modify, case_added.
  destruct NDEBUG; [reflexivity|]. cbn -[INT_MAX].
  destruct (_ =? _); [|reflexivity]. destruct (_ <? _)%Z; reflexivity.
Qed.

(** Whenever [Define] returns, the cases are the declared ones in the
    order of the calls, none of them run yet. *)
Lemma declare_returned (calls : list (string * TestFunction (F := F))) :
  forall w w', declare NDEBUG calls w = Ret tt w' ->
  _tests (self w') = _tests (self w) ++ map (fun c => DTestCase_new c.1 c.2) calls /\
  _testStatus (self w') = _testStatus (self w) ++ replicate (length calls) NOT_TESTED /\
  invoked w' = invoked w /\ cerr w' = cerr w /\
  _currentRunningTest (self w') = _currentRunningTest (self w).
Proof.
  induction calls as [|[name testFunc] rest IH]; intros w w' H; cbn in H.
  - injection H as <-. cbn. by rewrite !app_nil_r.
  - unfold bind in H. rewrite TestCase_result in H.
    destruct (_ || _); [|discriminate].
    apply IH in H as (Ht & Hs & Hi & He & Hc). cbn in Ht, Hs, Hi, He, Hc.
    rewrite Ht, Hs, Hi, He, Hc. cbn. by rewrite <- !app_assoc.
Qed.

(** With distinct names that are C strings and room in [signed int],
    [Define] returns in either build mode. *)
Lemma declare_returns (calls : list (string * TestFunction (F := F))) :
  forall w,
  Forall (fun name => c_str name = name) calls.*1 ->
  NoDup (GetTestNames (self w) ++ calls.*1) ->
  (Z.of_nat (length (_tests (self w)) + length calls) <= INT_MAX)%Z ->
  exists w', declare NDEBUG calls w = Ret tt w'.
Proof.
  induction calls as [|[name testFunc] rest IH]; intros w Hstr Hnd Hmax; cbn.
  - by eexists.
  - unfold bind. rewrite TestCase_result.
    cbn in Hstr. apply Forall_cons in Hstr as [Hname Hstr].
    assert (name ∉ GetTestNames (self w)) as Hfresh.
    { apply NoDup_app in Hnd as (_ & Hdisj & _). intros Hin.
      apply (Hdisj name Hin). cbn. left. }
    rewrite (find_if_absent _ _ Hfresh), Nat.eqb_refl.
    cbn [length] in Hmax.
    destruct (Z.ltb_spec (Z.of_nat (length (_tests (self w)))) INT_MAX); [|lia].
    rewrite orb_true_r. apply IH; [exact Hstr|..].
    + unfold GetTestNames, case_added. cbn. rewrite map_app. cbn.
      rewrite Hname, <- app_assoc. exact Hnd.
    + unfold case_added. cbn. rewrite length_app. cbn. lia.
Qed.

Lemma Define_fresh equal_allowed (f : F) (calls : list (string * TestFunction (F := F))) c :
  Forall (fun name => c_str name = name) calls.*1 ->
  NoDup calls.*1 ->
  (Z.of_nat (length calls) <= INT_MAX)%Z ->
  Forall (fun c => Tame equal_allowed c.2) calls ->
  exists w, Define NDEBUG (mkClass f calls) (mkWorld (new_instance f) c []) = Ret tt w /\
    GetTestNames (self w) = calls.*1 /\
    consistent (self w) /\
    NoDup (GetTestNames (self w)) /\
    Forall (fun test => Tame equal_allowed (Func test)) (_tests (self w)) /\
    length (_tests (self w)) = length calls /\
    invoked w = [] /\ cerr w = c /\
    map Func (_tests (self w)) = calls.*2.
Proof.
  intros Hstr Hnd Hmax Htame. unfold Define. cbn [Define_calls].
  destruct (declare_returns calls (mkWorld (new_instance f) c [])) as [w Hw];
    [done|done|cbn; lia|].
  exists w. split; [exact Hw|].
  apply declare_returned in Hw as (Ht & Hs & Hi & He & _). cbn in Ht, Hs, Hi, He.
  assert (GetTestNames (self w) = calls.*1) as Hnames.
  { unfold GetTestNames. rewrite Ht, map_map. cbn.
    clear -Hstr. induction calls as [|[n b] rest IH]; [done|].
    cbn in Hstr |- *. apply Forall_cons in Hstr as [-> Hstr]. f_equal. by apply IH. }
  split; [exact Hnames|]. split.
  { split; [by rewrite Ht, Hs, length_replicate, length_map|by rewrite Ht, length_map]. }
  split; [by rewrite Hnames|]. split.
  { rewrite Ht. apply Forall_fmap. eapply Forall_impl; [exact Htame|done]. }
  split; [by rewrite Ht, length_map|]. split; [done|]. split; [done|].
  rewrite Ht, map_map. done.
Qed.

(** ** The registry run *)

Lemma cassert_cases {S} (c : bool) (s : S) :
  cassert NDEBUG c s = Ret tt s \/ cassert NDEBUG c s = Aborted s.
Proof. unfold cassert. destruct NDEBUG, c; auto. Qed.

Lemma RunTest_same_cases w name :
  post (fun _ w' => _tests (self w') = _tests (self w))
       (fun _ => True) True
       (RunTest NDEBUG show_float name w).
Proof.
  unfold RunTest. unfold bind at 1, ResetFlags, bind, with_self, modify, get. cbn -[to_signed cassert].
  match goal with |- context [cassert NDEBUG ?c ?s] => destruct (cassert_cases c s) as [-> | ->] end;
    [|done].
  cbn -[to_signed]. destruct (_ !! _) as [test|]; [|done]. cbn -[to_signed].
  unfold note_invoked, modify, DoWork. cbn -[to_signed].
  set (w1 := mkWorld _ _ _).
  pose proof (run_same_cases (Func test) w1 w1 ltac:(by repeat split)) as Hpost.
  destruct (run NDEBUG show_float (Func test) w1) as [[] w2|w2| |]; cbn in Hpost |- *; try done.
  destruct (vector_assign _ _ _); cbn; [|done]. by destruct Hpost as (-> & _).
Qed.

Lemma OutResult_returns (result : bool) (p : Process (F := F)) :
  exists p', OutResult result p = Ret tt p'.
Proof. destruct result; by eexists. Qed.

Lemma passedCount_cons (r : bool) (rs : list bool) :
  passedCount (r :: rs) = (if r then 1 else 0) + passedCount rs.
Proof.
  unfold passedCount. rewrite filter_cons. destruct r; cbn.
  - destruct (decide (true = true)); [done|congruence].
  - destruct (decide (false = true)); [congruence|done].
Qed.

Lemma passedCount_le (rs : list bool) : passedCount rs <= length rs.
Proof. unfold passedCount. apply length_filter. Qed.

Lemma passedCount_all (rs : list bool) :
  passedCount rs = length rs <-> Forall (fun r => r = true) rs.
Proof.
  induction rs as [|r rs IH]; [by split|].
  rewrite passedCount_cons, Forall_cons. cbn [length].
  pose proof (passedCount_le rs). destruct r; split.
  - intros H'. split; [done|]. apply IH. lia.
  - intros [_ H']. apply IH in H'. lia.
  - intros H'. lia.
  - intros [H' _]. discriminate.
Qed.

(** The inner loop of the tester counts, modulo 2^32, the runs that
    returned [true], and leaves the cases of the instance as they are. *)
Lemma run_names_post names :
  forall (t : AutomatedTestInstance (F := F)) (counter : Z) (p : Process (F := F)),
  post (fun (r : Z * AutomatedTestInstance (F := F)) _ =>
          exists results, case_results NDEBUG show_float names t = Some results /\
            length results = length names /\
            r.1 = ((counter + Z.of_nat (passedCount results)) mod 2 ^ 32)%Z /\
            _tests r.2 = _tests t)
       (fun _ => True) True
       (run_names NDEBUG show_float names t (counter mod 2 ^ 32) p).
Proof.
  induction names as [|n names IH]; intros t counter p.
  - cbn. exists []. repeat split. by rewrite Z.add_0_r.
  - cbn [run_names case_results]. unfold bind at 1, out at 1, modify. cbn beta iota.
    set (p1 := if is_open _ then _ else _). clearbody p1.
    unfold bind at 1, on_instance.
    pose proof (RunTest_same_cases (mkWorld t "" []) n) as Hsame.
    destruct (RunTest NDEBUG show_float n _) as [r w| | |]; cbn [post] in Hsame |- *; try done.
    cbn [fst snd]. unfold bind at 1.
    destruct (OutResult_returns r (mkProcess (tester p1) (process_cerr p1 +:+ cerr w))) as [p2 ->].
    unfold bind at 1, out at 1, modify. cbn beta iota.
    set (p3 := if is_open _ then _ else _). clearbody p3.
    unfold to_unsigned. rewrite Z.add_mod_idemp_l by done.
    eapply post_impl; [apply (IH (self w) _ p3)|..]; try done.
    cbn beta. intros [c t'] _ (rs & Hrs & Hlen & Hc & Ht). cbn [fst snd] in *.
    rewrite Hrs. exists (r :: rs). split; [done|]. split; [cbn; by rewrite Hlen|].
    split; [|by rewrite Ht].
    rewrite Hc, passedCount_cons. f_equal. destruct r; cbn; lia.
Qed.

(** Passing fully is every case passing. *)
Lemma fully_passed_all_true (T : TestClass (F := F)) :
  fully_passed NDEBUG show_float T <->
  exists results, suite_results NDEBUG show_float T = Some results /\
    Forall (fun r => r = true) results.
Proof.
  unfold fully_passed, totalCount.
  split; intros (rs & Hrs & H); exists rs; (split; [exact Hrs|]); by apply passedCount_all.
Qed.

Lemma counted_iff (results : list bool) :
  (Z.of_nat (length results) < 2 ^ 32)%Z ->
  (Z.of_nat (passedCount results) mod 2 ^ 32 = Z.of_nat (length results))%Z <->
  passedCount results = totalCount results.
Proof.
  intros Hlt. pose proof (passedCount_le results) as Hle. unfold totalCount.
  rewrite Z.mod_small by lia. lia.
Qed.

(** One suite of the registry run: when the iteration returns, all cases
    of the suite ran, and the suite was counted exactly when the counter
    of passed cases equalled the number of cases. *)
Lemma run_suite_post (newTest : string * TestClass (F := F)) (p : Process (F := F)) :
  post (fun (counted : bool) _ =>
          exists results, suite_results NDEBUG show_float newTest.2 = Some results /\
            length results = length (Define_calls newTest.2) /\
            (counted = true <->
               (Z.of_nat (passedCount results) mod 2 ^ 32 = Z.of_nat (length results))%Z))
       (fun _ => True) True
       (run_suite NDEBUG show_float newTest p).
Proof.
  destruct newTest as [name T]. unfold run_suite, suite_results. cbn [fst snd].
  unfold bind at 1, out at 1, modify. cbn beta iota.
  set (p1 := if is_open _ then _ else _). clearbody p1.
  unfold bind at 1, on_instance.
  destruct (Define NDEBUG T _) as [[] w| | |] eqn:Hdef; cbn [post]; try done.
  cbn [fst snd]. unfold bind at 1.
  apply declare_returned in Hdef as (Ht & _). cbn in Ht.
  pose proof (run_names_post (GetTestNames (self w)) (self w) 0
                (mkProcess (tester p1) (process_cerr p1 +:+ cerr w))) as Hpost.
  change (0 mod 2 ^ 32)%Z with 0%Z in Hpost.
  destruct (run_names NDEBUG show_float _ _ 0 _) as [[c t'] p2| | |]; cbn [post] in Hpost |- *;
    try done.
  destruct Hpost as (rs & Hrs & Hlen & Hc & Ht'). cbn [fst snd] in *.
  rewrite Z.add_0_l in Hc.
  unfold bind, out, OutResult, modify, ret.
  assert (length (GetTestNames t') = length rs) as Hsize.
  { unfold GetTestNames in *. rewrite Ht'. done. }
  rewrite Hsize.
  assert (length rs = length (Define_calls T)) as Hcalls.
  { rewrite Hlen. unfold GetTestNames. rewrite Ht, !length_map. done. }
  destruct (c =? Z.of_nat (length rs))%Z eqn:Hcmp; cbn [post];
    (exists rs; split; [exact Hrs|]; split; [exact Hcalls|]); rewrite <- Hc.
  - apply Z.eqb_eq in Hcmp. done.
  - apply Z.eqb_neq in Hcmp. split; [discriminate|done].
Qed.

Lemma run_suites_post (entries : list (string * TestClass (F := F))) :
  Forall (fun e => (Z.of_nat (length (Define_calls e.2)) < 2 ^ 32)%Z) entries ->
  forall (counter : Z) (p : Process (F := F)),
  post (fun (c : Z) _ =>
          Forall (fun e => is_Some (suite_results NDEBUG show_float e.2)) entries /\
          exists k : nat, c = ((counter + Z.of_nat k) mod 2 ^ 32)%Z /\ k <= length entries /\
            (k = length entries <-> Forall (fun e => fully_passed NDEBUG show_float e.2) entries))
       (fun _ => True) True
       (run_suites NDEBUG show_float entries (counter mod 2 ^ 32) p).
Proof.
  induction 1 as [|e entries He _ IH]; intros counter p.
  - cbn. split; [done|]. exists 0. rewrite Z.add_0_r. done.
  - cbn [run_suites]. unfold bind at 1.
    pose proof (run_suite_post e p) as Hsuite.
    destruct (run_suite NDEBUG show_float e p) as [counted p1| | |]; cbn [post] in Hsuite |- *;
      try done.
    destruct Hsuite as (rs & Hrs & Hlen & Hcounted).
    rewrite counted_iff in Hcounted by (rewrite Hlen; exact He).
    assert (counted = true <-> fully_passed NDEBUG show_float e.2) as Hfull.
    { rewrite Hcounted. unfold fully_passed. split; [by exists rs|].
      intros (rs' & Hrs' & Heq). congruence. }
    unfold to_unsigned. rewrite Z.add_mod_idemp_l by done.
    eapply post_impl; [apply (IH _ p1)|..]; try done.
    cbn beta. intros c _ (Hsome & k & Hc & Hk & Hiff).
    split; [constructor; [by exists rs|done]|].
    exists ((if counted then 1 else 0) + k). split; [|split].
    + rewrite Hc. f_equal. destruct counted; cbn; lia.
    + cbn [length]. destruct counted; lia.
    + rewrite Forall_cons, <- Hfull, <- Hiff. cbn [length]. destruct counted; split.
      * intros ?. split; [done|lia].
      * intros [_ ?]. lia.
      * intros ?. lia.
      * intros [? _]. discriminate.
Qed.

Lemma SetupOutstream_post can_open argv (p : Process (F := F)) :
  post (fun _ p' => tester_tests (tester p') = tester_tests (tester p))
       (fun _ => True) True
       (SetupOutstream can_open argv p).
Proof.
  unfold SetupOutstream. destruct (1 <? _)%Z; [|done].
  unfold bind at 1. destruct (argv !! 1) as [path|]; [|done]. cbn [defined ret].
  unfold bind, modify, get, process_cerr_write, modify. cbn.
  destruct (is_open _); done.
Qed.

(** C3. When [RunAllTests] returns (registry below 2^32 entries, suites
    below 2^32 cases, as the counters are [unsigned int]): every
    registered suite ran all its cases; an iteration counts its suite
    exactly when the number of its cases whose run returned [true]
    equals the number of its cases; and the result is [true] exactly when
    that holds for every registered suite. *)
Theorem RunAllTests_result can_open argv (p p' : Process (F := F)) (b : bool) :
  (Z.of_nat (length (tester_tests (tester p))) < 2 ^ 32)%Z ->
  Forall (fun e => (Z.of_nat (length (Define_calls e.2)) < 2 ^ 32)%Z) (tester_tests (tester p)) ->
  RunAllTests NDEBUG show_float can_open argv p = Ret b p' ->
  Forall (fun e => is_Some (suite_results NDEBUG show_float e.2)) (tester_tests (tester p)) /\
  (forall e q counted q', e ∈ tester_tests (tester p) ->
     run_suite NDEBUG show_float e q = Ret counted q' ->
     (counted = true <-> fully_passed NDEBUG show_float e.2)) /\
  (b = true <-> Forall (fun e => fully_passed NDEBUG show_float e.2) (tester_tests (tester p))).
Proof.
  intros Hsize Hsuites Hrun. split; [|split].
  2:{ intros e q counted q' Hin Hret.
      pose proof (run_suite_post e q) as Hpost. rewrite Hret in Hpost. cbn in Hpost.
      destruct Hpost as (rs & Hrs & Hlen & Hcounted).
      rewrite Forall_forall in Hsuites. specialize (Hsuites e Hin).
      rewrite counted_iff in Hcounted by (by rewrite Hlen).
      rewrite Hcounted. unfold fully_passed. split; [by exists rs|].
      intros (rs' & Hrs' & Heq). congruence. }
  all: unfold RunAllTests in Hrun; unfold bind at 1 in Hrun;
    pose proof (SetupOutstream_post can_open argv p) as Hsetup;
    destruct (SetupOutstream can_open argv p) as [[] p1| | |]; cbn [post] in Hsetup;
      try discriminate;
    unfold bind at 1, get in Hrun; rewrite Hsetup in Hrun; unfold bind at 1 in Hrun;
    pose proof (run_suites_post _ Hsuites 0 p1) as Hpost;
    change (0 mod 2 ^ 32)%Z with 0%Z in Hpost;
    destruct (run_suites NDEBUG show_float _ 0 p1) as [c p2| | |]; cbn [post] in Hpost;
      try discriminate;
    destruct Hpost as (Hsome & k & Hc & Hk & Hiff).
  - exact Hsome.
  - unfold bind, out, OutResult, EndOutputStream, modify, ret in Hrun.
    assert (b = (c =? Z.of_nat (length (tester_tests (tester p))))%Z) as ->.
    { destruct (c =? _)%Z; cbn in Hrun; congruence. }
    rewrite <- Hiff, Z.eqb_eq, Hc, Z.add_0_l, Z.mod_small by lia. lia.
Qed.

(** *** The registry run returns *)

Lemma run_names_returns equal_allowed names :
  NDEBUG = true \/ equal_allowed = false ->
  forall (t : AutomatedTestInstance (F := F)) (counter : Z) (p : Process (F := F)),
  consistent t ->
  NoDup (GetTestNames t) ->
  Forall (fun test => Tame equal_allowed (Func test)) (_tests t) ->
  (forall n, n ∈ names -> n ∈ GetTestNames t) ->
  exists r p', run_names NDEBUG show_float names t counter p = Ret r p'.
Proof.
  intros Hmode. induction names as [|n names IH]; intros t counter p Hc Hnd Htame Hin.
  - by eexists _, _.
  - cbn [run_names]. unfold bind at 1, out at 1, modify. cbn beta iota.
    set (p1 := if is_open _ then _ else _). clearbody p1.
    unfold bind at 1, on_instance.
    destruct (proj1 (list_elem_of_fmap _ _ _) (Hin n ltac:(left))) as (test & -> & Htest).
    apply list_elem_of_lookup in Htest as [i Hi].
    pose proof (RunTest_tame equal_allowed (mkWorld t "" []) i test Hc Hnd Hi) as Hstep.
    rewrite Forall_lookup in Htame. specialize (Hstep (Htame _ _ Hi)).
    destruct (RunTest NDEBUG show_float (Name test) _) as [r w|w| |]; cbn [post] in Hstep;
      [|destruct Hstep as (? & ? & _); destruct Hmode; congruence|done|done].
    destruct Hstep as (Ht & Hs & _). cbn [self] in Ht, Hs.
    cbn [fst snd]. unfold bind at 1.
    destruct (OutResult_returns r (mkProcess (tester p1) (process_cerr p1 +:+ cerr w))) as [p2 ->].
    unfold bind at 1, out at 1, modify. cbn beta iota.
    apply IH.
    + destruct Hc as [Hlen Hmax]. split; [by rewrite Hs, Ht, length_insert|by rewrite Ht].
    + unfold GetTestNames. by rewrite Ht.
    + rewrite Ht. by apply Forall_lookup.
    + intros m Hm. unfold GetTestNames. rewrite Ht. apply Hin. by right.
Qed.

Lemma run_suite_returns equal_allowed (newTest : string * TestClass (F := F)) (p : Process (F := F)) :
  NDEBUG = true \/ equal_allowed = false ->
  orderly equal_allowed newTest.2 ->
  exists counted p', run_suite NDEBUG show_float newTest p = Ret counted p'.
Proof.
  intros Hmode (Hstr & Hnd & Hmax & Htame). destruct newTest as [name [f calls]].
  cbn [fst snd Define_calls] in *. unfold run_suite. cbn [fst snd members].
  unfold bind at 1, out at 1, modify. cbn beta iota.
  set (p1 := if is_open _ then _ else _). clearbody p1.
  unfold bind at 1, on_instance.
  destruct (Define_fresh equal_allowed f calls "" Hstr Hnd Hmax Htame)
    as (w & -> & _ & Hc & Hnd' & Htame' & _).
  cbn [fst snd]. unfold bind at 1.
  destruct (run_names_returns equal_allowed (GetTestNames (self w)) Hmode (self w) 0
              (mkProcess (tester p1) (process_cerr p1 +:+ cerr w)) Hc Hnd' Htame')
    as (r & p2 & ->); [done|].
  unfold bind, out, OutResult, modify, ret. destruct (_ =? _)%Z; by eexists _, _.
Qed.

Lemma run_suites_returns equal_allowed (entries : list (string * TestClass (F := F))) :
  NDEBUG = true \/ equal_allowed = false ->
  Forall (fun e => orderly equal_allowed e.2) entries ->
  forall (counter : Z) (p : Process (F := F)),
  exists c p', run_suites NDEBUG show_float entries counter p = Ret c p'.
Proof.
  intros Hmode. induction 1 as [|e entries He _ IH]; intros counter p; [by eexists _, _|].
  cbn [run_suites]. unfold bind at 1.
  destruct (run_suite_returns equal_allowed e p Hmode He) as (counted & p1 & ->).
  apply IH.
Qed.

(** With assertions compiled out, or when no body calls [TestEqual],
    [RunAllTests] over orderly classes returns. *)
Lemma RunAllTests_returns equal_allowed can_open argv (p : Process (F := F)) :
  NDEBUG = true \/ equal_allowed = false ->
  Forall (fun e => orderly equal_allowed e.2) (tester_tests (tester p)) ->
  exists b p', RunAllTests NDEBUG show_float can_open argv p = Ret b p'.
Proof.
  intros Hmode Hall. unfold RunAllTests. unfold bind at 1.
  pose proof (SetupOutstream_post can_open argv p) as Hsetup.
  assert (exists p1, SetupOutstream can_open argv p = Ret tt p1) as [p1 Hp1].
  { unfold SetupOutstream. destruct (Z.ltb_spec 1 (Z.of_nat (length argv))); [|by eexists].
    destruct (lookup_lt_is_Some_2 argv 1) as [path ->]; [lia|].
    unfold bind, defined, ret, modify, get, process_cerr_write, modify. cbn.
    destruct (is_open _); by eexists. }
  rewrite Hp1 in Hsetup |- *. cbn [post] in Hsetup.
  unfold bind at 1, get. unfold bind at 1. rewrite Hsetup.
  destruct (run_suites_returns equal_allowed _ Hmode Hall 0 p1) as (c & p2 & ->).
  unfold bind, out, OutResult, EndOutputStream, modify, ret.
  destruct (_ =? _)%Z; by eexists _, _.
Qed.

(** ** The macros *)

(** [TEST_TRUE_OR_QUIT] on a false expression ends the body of the running
    case after its report: what would follow ([k]) is not executed. *)
Lemma TEST_TRUE_OR_QUIT_quits w name text line (k : TestFunction (F := F)) :
  vector_at (GetTestNames (self w)) (GetCurrentRunningTest (self w)) = Some name ->
  run NDEBUG show_float (TEST_TRUE_OR_QUIT false text line k) w =
    Ret tt (mkWorld (set_failed true (self w))
                    (cerr w +:+ macro_report "TEST_TRUE_OR_QUIT" text line name) (invoked w)).
Proof.
  intros Hname. cbn [TEST_TRUE_OR_QUIT run negb].
  unfold bind, TestTrue, with_self, modify, ret. cbn -[vector_at macro_report].
  unfold bind, current_name, bind, get, defined, GetTestNames, GetCurrentRunningTest in *.
  cbn -[vector_at macro_report]. rewrite Hname. reflexivity.
Qed.

(** [TEST_TRUE] on a false expression reports and goes on with [k]. *)
Lemma TEST_TRUE_continues w name text line (k : TestFunction (F := F)) :
  vector_at (GetTestNames (self w)) (GetCurrentRunningTest (self w)) = Some name ->
  run NDEBUG show_float (TEST_TRUE false text line k) w =
    run NDEBUG show_float k
      (mkWorld (set_failed true (self w))
               (cerr w +:+ macro_report "TEST_TRUE" text line name) (invoked w)).
Proof.
  intros Hname. cbn [TEST_TRUE run negb].
  unfold bind, TestTrue, with_self, modify, ret. cbn -[vector_at macro_report].
  unfold bind, current_name, bind, get, defined, GetTestNames, GetCurrentRunningTest in *.
  cbn -[vector_at macro_report]. rewrite Hname. reflexivity.
Qed.

Lemma macros_tame equal_allowed e text line (k : TestFunction (F := F)) :
  Tame equal_allowed k ->
  Tame equal_allowed (TEST_TRUE_OR_QUIT e text line k) /\
  Tame equal_allowed (TEST_TRUE e text line k) /\
  Tame equal_allowed (TEST_FALSE e text line k).
Proof.
  intros Hk. repeat split; constructor; intros []; cbn; repeat constructor; done.
Qed.

(** * Further properties *)

(** ** The registry as a map *)

Section MapExtension.

Context {V : Type}.
Implicit Types (m : list (string * V)) (k : string) (v : V).

Lemma ltb_total k1 k2 :
  String.ltb k1 k2 = false -> String.ltb k2 k1 = false -> k1 = k2.
Proof.
  unfold String.ltb. rewrite (String.compare_antisym k2 k1).
  destruct (String.compare k1 k2) eqn:E; cbn; try discriminate.
  intros _ _. by apply String.compare_eq_iff.
Qed.

Lemma map_find_below k k0 v0 m :
  map_ordered ((k0, v0) :: m) = true -> String.ltb k k0 = true ->
  map_find k ((k0, v0) :: m) = None.
Proof.
  intros Hord Hlt. cbn [map_find].
  destruct (String.eqb_spec k k0) as [->|Hne]; [by rewrite ltb_irrefl in Hlt|].
  destruct (map_find k m) as [v|] eqn:Hk; [|done]. exfalso.
  pose proof (map_ordered_above k0 v0 m k Hord ltac:(by exists v)) as Hgt.
  pose proof (ltb_trans _ _ _ Hlt Hgt) as Hkk. by rewrite ltb_irrefl in Hkk.
Qed.

(** Two ordered maps with the same lookups are the same map. *)
Lemma map_ordered_ext m1 :
  forall m2, map_ordered m1 = true -> map_ordered m2 = true ->
  (forall k, map_find k m1 = map_find k m2) -> m1 = m2.
Proof.
  induction m1 as [|[k1 v1] m1 IH]; intros [|[k2 v2] m2] H1 H2 Hext; [done|..].
  - specialize (Hext k2). cbn in Hext. by rewrite String.eqb_refl in Hext.
  - specialize (Hext k1). cbn in Hext. by rewrite String.eqb_refl in Hext.
  - assert (k1 = k2) as <-.
    { apply ltb_total.
      - destruct (String.ltb k1 k2) eqn:Hlt; [|done]. exfalso.
        pose proof (Hext k1) as He. rewrite (map_find_below k1 k2 v2 m2 H2 Hlt) in He.
        cbn in He. by rewrite String.eqb_refl in He.
      - destruct (String.ltb k2 k1) eqn:Hlt; [|done]. exfalso.
        pose proof (Hext k2) as He. rewrite (map_find_below k2 k1 v1 m1 H1 Hlt) in He.
        cbn in He. by rewrite String.eqb_refl in He. }
    assert (v1 = v2) as <-.
    { specialize (Hext k1). cbn in Hext. rewrite String.eqb_refl in Hext. congruence. }
    f_equal. apply IH; [by eapply map_ordered_tail|by eapply map_ordered_tail|].
    intros k'. specialize (Hext k'). cbn [map_find] in Hext.
    destruct (String.eqb_spec k' k1) as [Heq|Hne]; [subst k'|done].
    destruct (map_find k1 m1) as [v|] eqn:E1.
    { pose proof (map_ordered_above k1 v1 m1 k1 H1 ltac:(by exists v)) as Hkk.
      by rewrite ltb_irrefl in Hkk. }
    destruct (map_find k1 m2) as [v|] eqn:E2; [|done].
    pose proof (map_ordered_above k1 v1 m2 k1 H2 ltac:(by exists v)) as Hkk.
    by rewrite ltb_irrefl in Hkk.
Qed.

Lemma map_assign_twice k v1 v2 m : map_assign k v1 (map_assign k v2 m) = map_assign k v1 m.
Proof.
  induction m as [|[k0 v0] m IH]; cbn.
  - by rewrite ltb_irrefl, String.eqb_refl.
  - destruct (String.ltb k k0) eqn:Hlt; cbn.
    + by rewrite ltb_irrefl, String.eqb_refl.
    + destruct (String.eqb k k0) eqn:Heq; cbn.
      * by rewrite ltb_irrefl, String.eqb_refl.
      * by rewrite Hlt, Heq, IH.
Qed.

Lemma map_assign_length_new k v m :
  map_find k m = None -> length (map_assign k v m) = S (length m).
Proof.
  induction m as [|[k0 v0] m IH]; intros Hnone; cbn; [done|].
  cbn in Hnone. destruct (String.ltb k k0); [done|].
  destruct (String.eqb k k0); [discriminate|]. cbn. f_equal. by apply IH.
Qed.

Lemma map_find_Some_elem k v m : map_find k m = Some v -> (k, v) ∈ m.
Proof.
  induction m as [|[k0 v0] m IH]; cbn; [discriminate|].
  destruct (String.eqb_spec k k0) as [->|Hne].
  - intros [= ->]. left.
  - intros H. right. by apply IH.
Qed.

Lemma map_find_elem_NoDup k v m : NoDup m.*1 -> (k, v) ∈ m -> map_find k m = Some v.
Proof.
  induction m as [|[k0 v0] m IH]; intros Hnd Hin; [inversion Hin|].
  cbn in Hnd. apply NoDup_cons in Hnd as [Hnotin Hnd]. cbn.
  apply elem_of_cons in Hin as [[= -> ->]|Hin]; [by rewrite String.eqb_refl|].
  destruct (String.eqb_spec k k0) as [->|Hne]; [|by apply IH].
  exfalso. apply Hnotin. apply list_elem_of_fmap. by exists (k0, v).
Qed.

Lemma map_find_permutation k m m' : NoDup m.*1 -> m ≡ₚ m' -> map_find k m = map_find k m'.
Proof.
  intros Hnd Hperm.
  assert (NoDup m'.*1) as Hnd' by (by rewrite <- Hperm).
  destruct (map_find k m) as [v|] eqn:E.
  - symmetry. apply map_find_elem_NoDup; [done|]. rewrite <- Hperm. by apply map_find_Some_elem.
  - destruct (map_find k m') as [v|] eqn:E'; [|done].
    apply map_find_Some_elem in E'. rewrite <- Hperm in E'.
    apply (map_find_elem_NoDup _ _ _ Hnd) in E'. congruence.
Qed.

End MapExtension.

(** ** Registration *)

Lemma run_inserters_ordered (inserters : list (string * TestClass (F := F))) :
  forall a, map_ordered (tester_tests a) = true ->
  map_ordered (tester_tests (run_inserters inserters a)) = true /\
  _outstream (run_inserters inserters a) = _outstream a.
Proof.
  induction inserters as [|[n T] rest IH]; intros a Hord; [done|].
  cbn [run_inserters]. destruct (IH (TestInserter T n a)) as [H1 H2].
  - by apply map_assign_ordered.
  - done.
Qed.

Lemma run_inserters_find (inserters : list (string * TestClass (F := F))) :
  forall a k, NoDup inserters.*1 ->
  map_find k (tester_tests (run_inserters inserters a)) =
    match map_find k inserters with
    | Some T => Some T
    | None => map_find k (tester_tests a)
    end.
Proof.
  induction inserters as [|[n T] rest IH]; intros a k Hnd; [done|].
  cbn in Hnd. apply NoDup_cons in Hnd as [Hnotin Hnd].
  cbn [run_inserters map_find]. rewrite IH by done.
  unfold TestInserter, AddTest. cbn [tester_tests].
  destruct (String.eqb_spec k n) as [->|Hne].
  - destruct (map_find n rest) as [T'|] eqn:E.
    + exfalso. apply Hnotin. apply map_find_Some_elem in E.
      apply list_elem_of_fmap. by exists (n, T').
    + apply map_find_assign_eq.
  - destruct (map_find k rest); [done|]. by apply map_find_assign_ne.
Qed.

(** X1. The last registration under a name is the one that counts:
    registering [T1] over a registration of [T2] under the same name gives
    the tester that registering [T1] alone gives, whatever was registered
    before, and the name then maps to [T1]. *)
Theorem AddTest_last_wins (T1 T2 : TestClass (F := F)) (testName : string)
    (a : AutomationTester (F := F)) :
  AddTest T1 testName (AddTest T2 testName a) = AddTest T1 testName a /\
  map_find testName (tester_tests (AddTest T1 testName a)) = Some T1.
Proof.
  unfold AddTest. cbn [tester_tests _outstream]. split.
  - by rewrite map_assign_twice.
  - apply map_find_assign_eq.
Qed.

(** X2. Registering a name that is not registered yet adds exactly one
    entry: the name maps to the class, every other name maps to what it
    mapped to before (a name that was missing is still missing), and the
    map stays ordered. *)
Theorem AddTest_new_name (T : TestClass (F := F)) (testName : string)
    (a : AutomationTester (F := F)) :
  map_ordered (tester_tests a) = true ->
  map_find testName (tester_tests a) = None ->
  length (tester_tests (AddTest T testName a)) = S (length (tester_tests a)) /\
  map_find testName (tester_tests (AddTest T testName a)) = Some T /\
  (forall other, other <> testName ->
     map_find other (tester_tests (AddTest T testName a)) = map_find other (tester_tests a)) /\
  map_ordered (tester_tests (AddTest T testName a)) = true.
Proof.
  intros Hord Hnone. unfold AddTest. cbn [tester_tests].
  split; [by apply map_assign_length_new|].
  split; [apply map_find_assign_eq|].
  split; [intros other Hne; by apply map_find_assign_ne|by apply map_assign_ordered].
Qed.

(** X3. The order in which the static inserters run does not matter: for
    inserters with distinct class names, any two orders of construction
    leave the same tester, with every inserted name mapping to its class. *)
Theorem run_inserters_any_order (inserters inserters' : list (string * TestClass (F := F)))
    (a : AutomationTester (F := F)) :
  map_ordered (tester_tests a) = true ->
  NoDup inserters.*1 ->
  inserters ≡ₚ inserters' ->
  run_inserters inserters a = run_inserters inserters' a /\
  (forall className T, (className, T) ∈ inserters ->
     map_find className (tester_tests (run_inserters inserters a)) = Some T).
Proof.
  intros Hord Hnd Hperm.
  assert (NoDup inserters'.*1) as Hnd' by (by rewrite <- Hperm).
  destruct (run_inserters_ordered inserters a Hord) as [Ho1 Hs1].
  destruct (run_inserters_ordered inserters' a Hord) as [Ho2 Hs2].
  split.
  - assert (tester_tests (run_inserters inserters a) = tester_tests (run_inserters inserters' a))
      as Heq.
    { apply map_ordered_ext; [done|done|]. intros k.
      rewrite !run_inserters_find by done. by rewrite (map_find_permutation k _ _ Hnd Hperm). }
    destruct (run_inserters inserters a), (run_inserters inserters' a). cbn in *. congruence.
  - intros className T Hin. rewrite run_inserters_find by done.
    by rewrite (map_find_elem_NoDup _ _ _ Hnd Hin).
Qed.

(** ** Declaring cases *)

Lemma find_if_length_iff name (tests : list (DTestCase (F := F))) :
  find_if (has_name name) tests = length tests <-> name ∉ map Name tests.
Proof.
  split; [|apply find_if_absent].
  induction tests as [|test rest IH]; cbn; [intros _ H; inversion H|].
  unfold has_name at 1. destruct (String.eqb_spec (Name test) name) as [Heq|Hne]; [done|].
  intros [= Hlen] Hin. apply (IH Hlen). inversion Hin; subst; [congruence|done].
Qed.

Lemma find_if_app_l name (tests more : list (DTestCase (F := F))) :
  name ∈ map Name tests ->
  find_if (has_name name) (tests ++ more) = find_if (has_name name) tests /\
  find_if (has_name name) tests < length tests.
Proof.
  induction tests as [|test rest IH]; intros Hin; [inversion Hin|]. cbn [app find_if length].
  change (has_name name test) with (String.eqb (Name test) name).
  destruct (String.eqb_spec (Name test) name) as [Heq|Hne]; [split; [done|lia]|].
  destruct IH as [-> ?]; [|split; [done|lia]].
  cbn in Hin. inversion Hin; subst; [congruence|done].
Qed.

Lemma find_if_app_r name (tests more : list (DTestCase (F := F))) :
  name ∉ map Name tests ->
  find_if (has_name name) (tests ++ more) = length tests + find_if (has_name name) more.
Proof.
  induction tests as [|test rest IH]; intros Hnot; [done|]. cbn.
  unfold has_name at 1. destruct (String.eqb_spec (Name test) name) as [Heq|Hne].
  - exfalso. apply Hnot. cbn. rewrite Heq. left.
  - f_equal. apply IH. intros Hin. apply Hnot. cbn. by right.
Qed.


(** [GetResult] of a declared name reads the outcome at the first
    position with that name. *)
Lemma GetResult_declared t name :
  (Z.of_nat (length (_tests t)) <= INT_MAX)%Z ->
  name ∈ GetTestNames t ->
  GetResult t name = _testStatus t !! find_if (has_name name) (_tests t).
Proof.
  intros Hmax Hin. unfold GetResult. rewrite GetResult_from_found by (done || lia).
  rewrite Z.add_0_l. unfold vector_at.
  destruct (Z.leb_spec 0 (Z.of_nat (find_if (has_name name) (_tests t)))); [|lia].
  by rewrite Nat2Z.id.
Qed.

(** X4. [TestCase] either adds the case or stops at one of its two
    assertions, leaving the instance as it was; it stops exactly in a
    build with assertions when the name is already declared or the suite
    already holds [INT_MAX] cases. With assertions compiled out it always
    adds the case, duplicate or not. *)
Theorem TestCase_adds_or_stops w name (testFunc : TestFunction (F := F)) :
  (TestCase NDEBUG name testFunc w = Ret tt (case_added name testFunc w) \/
   TestCase NDEBUG name testFunc w = Aborted w) /\
  (TestCase NDEBUG name testFunc w = Aborted w <->
   NDEBUG = false /\
   ((name ∈ GetTestNames (self w)) \/ (INT_MAX <= Z.of_nat (length (_tests (self w))))%Z)).
Proof.
  rewrite TestCase_result.
  destruct (decide (name ∈ GetTestNames (self w))) as [Hin|Hnot].
  - assert ((find_if (has_name name) (_tests (self w)) =? length (_tests (self w))) = false) as ->.
    { apply Nat.eqb_neq. intros Heq. by apply find_if_length_iff in Heq. }
    destruct NDEBUG; cbn; (split; [auto|]); split; try discriminate; intuition congruence.
  - rewrite (find_if_absent _ _ Hnot), Nat.eqb_refl.
    destruct (Z.ltb_spec (Z.of_nat (length (_tests (self w)))) INT_MAX);
      destruct NDEBUG; cbn; (split; [auto|]); split; try discriminate;
      try (intros [? [?|?]]; done || lia || congruence); intuition.
Qed.

Lemma TestCase_returned w w' name (testFunc : TestFunction (F := F)) :
  TestCase NDEBUG name testFunc w = Ret tt w' -> w' = case_added name testFunc w.
Proof. rewrite TestCase_result. destruct (_ || _); congruence. Qed.

(** X5. When [TestCase] returns on an instance with parallel vectors and
    room left, the new case is the last one, named by the characters of
    [name] before its first NUL, with the outcome [NOT_TESTED]; the
    outcomes [GetResult] gives for the names declared before are the
    same, and nothing else of the instance or of [std::cerr] changes. *)
Theorem TestCase_adds_untested w w' name (testFunc : TestFunction (F := F)) :
  consistent (self w) ->
  (Z.of_nat (length (_tests (self w))) < INT_MAX)%Z ->
  TestCase NDEBUG name testFunc w = Ret tt w' ->
  GetTestNames (self w') = GetTestNames (self w) ++ [c_str name] /\
  GetResults (self w') = GetResults (self w) ++ [NOT_TESTED] /\
  consistent (self w') /\
  (forall other, other ∈ GetTestNames (self w) ->
     GetResult (self w') other = GetResult (self w) other) /\
  (c_str name ∉ GetTestNames (self w) -> GetResult (self w') (c_str name) = Some NOT_TESTED) /\
  _failed (self w') = _failed (self w) /\
  GetCurrentRunningTest (self w') = GetCurrentRunningTest (self w) /\
  _log (self w') = _log (self w) /\
  cerr w' = cerr w /\ invoked w' = invoked w.
Proof.
  intros [Hlen Hmax] Hroom Hret. apply TestCase_returned in Hret as ->.
  set (w' := case_added name testFunc w).
  assert (_tests (self w') = _tests (self w) ++ [DTestCase_new name testFunc]) as Ht by done.
  assert (_testStatus (self w') = _testStatus (self w) ++ [NOT_TESTED]) as Hs by done.
  assert (consistent (self w')) as Hc'.
  { split; rewrite ?Hs, Ht, !length_app; cbn; lia. }
  assert (GetTestNames (self w') = GetTestNames (self w) ++ [c_str name]) as Hnames.
  { unfold GetTestNames. by rewrite Ht, map_app. }
  split; [exact Hnames|]. split; [exact Hs|]. split; [exact Hc'|].
  split; [|split; [|done]].
  - intros other Hin. rewrite (GetResult_declared (self w)) by (done || lia).
    rewrite (GetResult_declared (self w') other);
      [|apply Hc'|rewrite Hnames; apply elem_of_app; by left].
    rewrite Ht, Hs.
    destruct (find_if_app_l other (_tests (self w)) [DTestCase_new name testFunc] Hin)
      as [-> Hlt].
    apply lookup_app_l. lia.
  - intros Hfresh. rewrite (GetResult_declared (self w'));
      [|apply Hc'|rewrite Hnames; apply elem_of_app; right; left].
    rewrite Ht, Hs, find_if_app_r by done. cbn [find_if].
    change (has_name (c_str name) (DTestCase_new name testFunc))
      with (String.eqb (c_str name) (c_str name)).
    rewrite String.eqb_refl, Nat.add_0_r, <- Hlen. by apply list_lookup_middle.
Qed.

(** X6. The duplicate check of [TestCase] compares the whole [name] while
    the case is stored under [name.c_str()]: a name that is new as a whole
    but equal to a declared name up to its first NUL passes the assertion
    in every build, and the suite then holds two cases with the same
    name. *)
Theorem TestCase_NUL_duplicate w name (testFunc : TestFunction (F := F)) :
  name ∉ GetTestNames (self w) ->
  c_str name ∈ GetTestNames (self w) ->
  (Z.of_nat (length (_tests (self w))) < INT_MAX)%Z ->
  TestCase NDEBUG name testFunc w = Ret tt (case_added name testFunc w) /\
  ~ NoDup (GetTestNames (self (case_added name testFunc w))).
Proof.
  intros Hnot Hin Hroom. split.
  - rewrite TestCase_result, (find_if_absent _ _ Hnot), Nat.eqb_refl.
    destruct (Z.ltb_spec (Z.of_nat (length (_tests (self w)))) INT_MAX); [|lia].
    by rewrite orb_true_r.
  - unfold GetTestNames, case_added. cbn. rewrite map_app. cbn.
    intros Hnd. apply NoDup_app in Hnd as (_ & Hdisj & _).
    apply (Hdisj (c_str name) Hin). left.
Qed.

(** ** Running a case again, and beside other cases *)




(** X9. [RunTest] starts from reset flags: what an earlier run left in
    [_failed] and [_currentRunningTest] has no influence on the run, its
    result or the world it leaves. *)
Theorem RunTest_ignores_old_flags w name (failed : bool) (index : Z) :
  RunTest NDEBUG show_float name
    (mkWorld (set_currentRunningTest index (set_failed failed (self w))) (cerr w) (invoked w))
  = RunTest NDEBUG show_float name w.
Proof. reflexivity. Qed.



(** X11. A body that calls [ResetFlags()] and returns with the index
    still at -1 (or anywhere outside the vector) makes [RunTest] store the
    outcome out of range: the run is undefined. *)
Theorem RunTest_after_ResetFlags_undefined w (i : nat) (test : DTestCase (F := F)) w2 :
  consistent (self w) ->
  NoDup (GetTestNames (self w)) ->
  _tests (self w) !! i = Some test ->
  run NDEBUG show_float (Func test) (entered i w) = Ret tt w2 ->
  (GetCurrentRunningTest (self w2) < 0 \/
   Z.of_nat (length (_tests (self w))) <= GetCurrentRunningTest (self w2))%Z ->
  RunTest NDEBUG show_float (Name test) w = Undefined.
Proof.
  intros [Hlen Hmax] Hnd Hi Hrun Hout.
  pose proof (find_if_NoDup _ _ _ Hnd Hi) as Hfind.
  rewrite (RunTest_found w (Name test) i test Hmax Hfind Hi), Hrun.
  pose proof (run_same_cases (Func test) (entered i w) (entered i w) ltac:(by repeat split))
    as Hsame.
  rewrite Hrun in Hsame. cbn in Hsame. destruct Hsame as (_ & Hs & _).
  change (_testStatus (self (entered i w))) with (_testStatus (self w)) in Hs.
  unfold vector_assign, GetCurrentRunningTest in *.
  assert (length (_testStatus (self w2)) = length (_tests (self w))) as -> by (by rewrite Hs).
  destruct (Z.leb_spec 0 (_currentRunningTest (self w2)));
    destruct (Z.ltb_spec (_currentRunningTest (self w2)) (Z.of_nat (length (_tests (self w)))));
    cbn; try done; lia.
Qed.

(** X12. While the body of the case at position [i] runs (in any world
    that differs from the entered one by assertions, logging and fixture
    only), the name the diagnostics use is the name of that case: a failed
    [TestEqual] reports under it. *)
Theorem failure_names_running_case w (i : nat) (test : DTestCase (F := F)) w1 :
  _tests (self w) !! i = Some test ->
  undisturbed (entered i w) w1 ->
  current_name w1 = Ret (Name test) w1 /\
  (forall value expected : Z, value <> expected ->
     TestEqual_int NDEBUG value expected w1 =
       if NDEBUG
       then Ret false (mismatch_reported (Name test) (pretty expected) (pretty value) w1)
       else Aborted (mismatch_reported (Name test) (pretty expected) (pretty value) w1)).
Proof.
  intros Hi (Ht & _ & _ & Hidx & _). cbn in Ht, Hidx.
  assert (vector_at (GetTestNames (self w1)) (GetCurrentRunningTest (self w1)) = Some (Name test))
    as Hname.
  { unfold GetTestNames, GetCurrentRunningTest, vector_at. rewrite Ht, Hidx.
    destruct (Z.leb_spec 0 (Z.of_nat i)); [|lia]. by rewrite Nat2Z.id, list_lookup_fmap, Hi. }
  split.
  - unfold current_name, bind, get. by rewrite Hname.
  - intros value expected Hne. unfold TestEqual_int.
    apply Z.eqb_neq in Hne. rewrite Hne. cbn [negb]. by apply mismatch_result.
Qed.

(** ** The streams *)

Lemma append_assoc (s1 s2 s3 : string) : (s1 +:+ s2) +:+ s3 = s1 +:+ (s2 +:+ s3).
Proof.
  induction s1 as [|c s1 IH]; [reflexivity|].
  change (String c ((s1 +:+ s2) +:+ s3) = String c (s1 +:+ (s2 +:+ s3))). by rewrite IH.
Qed.

Lemma append_empty_r (s : string) : s +:+ "" = s.
Proof.
  induction s as [|c s IH]; [reflexivity|].
  change (String c (s +:+ "") = String c s). by rewrite IH.
Qed.

Lemma extends_refl (s : string) : extends s s.
Proof. exists "". by rewrite append_empty_r. Qed.

Lemma extends_trans (s1 s2 s3 : string) : extends s1 s2 -> extends s2 s3 -> extends s1 s3.
Proof. intros [a1 ->] [a2 ->]. exists (a1 +:+ a2). apply append_assoc. Qed.

Lemma extends_append (s s' text : string) : extends s s' -> extends s (s' +:+ text).
Proof. intros [added ->]. exists (added +:+ text). apply append_assoc. Qed.

Lemma extends_insert (s : string) (l : stringstream) (text : string) :
  extends s (str l) -> extends s (str (stream_insert l text)).
Proof.
  intros H. unfold stream_insert. destruct (good l); [|done]. cbn. by apply extends_append.
Qed.

Lemma output_kept_refl w : output_kept w w.
Proof. split; apply extends_refl. Qed.

(** X13. No member function and no macro of the header removes output.
    For every body made of the calls of [TestFunction] (the checks, the
    getters, [ResetLog], [ResetFlags], the macros, and of the stream
    [OutLog()] returns only insertion with [<<] and [setstate]; the other
    members of that [std::stringstream], such as [str(s)] or [seekp], can
    replace text and are not among them): when the body returns or stops
    the process, the text sent to [std::cerr] before is the beginning of
    the text sent so far, and the text [GetLog] returned before is the
    beginning of what it returns now. *)
Theorem run_only_appends body :
  forall w0 w, output_kept w0 w ->
  post (fun _ w' => output_kept w0 w') (fun w' => output_kept w0 w') True
       (run NDEBUG show_float body w).
Proof.
  assert (forall w0 w (f : AutomatedTestInstance (F := F) -> AutomatedTestInstance (F := F)),
            output_kept w0 w -> _log (f (self w)) = _log (self w) ->
            output_kept w0 (mkWorld (f (self w)) (cerr w) (invoked w))) as Hself.
  { intros w0 w f [Hc Hl] Hlog. split; [done|]. unfold GetLog in *. cbn. by rewrite Hlog. }
  assert (forall w0 w text, output_kept w0 w ->
            output_kept w0 (mkWorld (self w) (cerr w +:+ text) (invoked w))) as Hcerr.
  { intros w0 w text [Hc Hl]. split; [by apply extends_append|done]. }
  assert (forall expected value w0 w (k : bool -> comp World unit),
    output_kept w0 w ->
    (forall r w1, output_kept w0 w1 ->
       post (fun _ w' => output_kept w0 w') (fun w' => output_kept w0 w') True (k r w1)) ->
    post (fun _ w' => output_kept w0 w') (fun w' => output_kept w0 w') True
         (bind (mismatch NDEBUG expected value) k w)) as Hmis.
  { intros expected value w0 w k Hw Hk.
    unfold bind at 1, mismatch, bind, current_name, bind, get, defined, cerr_write, with_self,
      modify, cassert, ret, undefined.
    destruct (vector_at _ _); cbn; [|done].
    assert (output_kept w0
              (mkWorld (set_failed true (self w)) (cerr w +:+ diagnostic s expected value)
                       (invoked w))) as Hw'.
    { destruct Hw as [Hc Hl]. split; [by apply extends_append|done]. }
    destruct NDEBUG; cbn; [by apply Hk|done]. }
  induction body as [ | e k IH | e k IH | v e k IH | v e k IH | v e k IH
                    | k IH | k IH | k IH | k IH | k IH | k IH | text k IH | k IH
                    | k IH | text k IH | k IH | f k IH ];
    intros w0 w Hw; cbn [run].
  - exact Hw.
  - unfold bind, TestTrue, with_self, modify, ret. destruct e; cbn; apply IH; [done|].
    by apply (Hself w0 w (set_failed true)).
  - unfold bind, TestFalse, with_self, modify, ret. destruct e; cbn; apply IH; [|done].
    by apply (Hself w0 w (set_failed true)).
  - unfold TestEqual_int. destruct (negb (v =? e)%Z);
      [apply Hmis; [done|intros; by apply IH]|unfold bind, ret; by apply IH].
  - unfold TestEqual_unsigned. destruct (negb (v =? e)%Z);
      [apply Hmis; [done|intros; by apply IH]|unfold bind, ret; by apply IH].
  - unfold TestEqual_float. destruct (negb (__floatsAlmostSame v e));
      [apply Hmis; [done|intros; by apply IH]|unfold bind, ret; by apply IH].
  - unfold bind, get. by apply IH.
  - unfold bind, get. by apply IH.
  - unfold bind, get. by apply IH.
  - unfold bind, get. by apply IH.
  - unfold bind, ResetLog, with_self, modify. apply IH.
    destruct Hw as [Hc Hl]. split; done.
  - unfold bind, ResetFlags, bind, with_self, modify. cbn. apply IH.
    destruct Hw as [Hc Hl]. split; done.
  - unfold bind, OutLog_write, with_self, modify. apply IH.
    destruct Hw as [Hc Hl]. split; [done|]. unfold GetLog in *. cbn. by apply extends_insert.
  - unfold bind, with_self, modify. apply IH. destruct Hw as [Hc Hl]. split; done.
  - unfold bind at 1, current_name, bind, get, defined, ret, undefined.
    destruct (vector_at _ _); cbn; [by apply IH|done].
  - unfold bind, cerr_write, modify. apply IH. by apply Hcerr.
  - unfold bind, get. by apply IH.
  - unfold bind, with_self, modify. apply IH. by apply (Hself w0 w (set_fixture f)).
Qed.

(** X14. An insertion into the log lands when the stream is good and is
    dropped when it has failed; after [ResetLog] it always lands. This is
    all [ResetLog] is good for: it re-enables a failed log, it does not
    empty it. *)
Theorem ResetLog_enables_insertion w (text : string) :
  (exists w', OutLog_write text w = Ret tt w' /\
     GetLog (self w') = if good (_log (self w)) then GetLog (self w) +:+ text
                        else GetLog (self w)) /\
  (exists w', (ResetLog;;; OutLog_write text) w = Ret tt w' /\
     GetLog (self w') = GetLog (self w) +:+ text /\ good (_log (self w')) = true).
Proof.
  split; eexists; (split; [reflexivity|]); cbn; unfold stream_insert, GetLog; cbn.
  - by destruct (good (_log (self w))).
  - done.
Qed.

(** ** The macros in a running case *)

(** X15. [TEST_TRUE_OR_QUIT] in a running case: on a true expression the
    body goes on with what follows, nothing changed; on a false one the
    flag is set, one report naming the case goes to [std::cerr], and the
    body ends there: what follows is not executed. *)
Theorem TEST_TRUE_OR_QUIT_runs w name (e : bool) text line (k : TestFunction (F := F)) :
  vector_at (GetTestNames (self w)) (GetCurrentRunningTest (self w)) = Some name ->
  run NDEBUG show_float (TEST_TRUE_OR_QUIT e text line k) w =
    if e then run NDEBUG show_float k w
    else Ret tt (macro_reported "TEST_TRUE_OR_QUIT" text line name w).
Proof.
  intros Hname. destruct e; [reflexivity|]. by apply TEST_TRUE_OR_QUIT_quits.
Qed.

(** X16. [TEST_TRUE] and [TEST_FALSE] in a running case never end the
    body: what follows always runs. When the check fails ([TEST_TRUE] on
    false, [TEST_FALSE] on true) it runs with the flag set and after one
    report naming the case; otherwise in the world as it was. *)
Theorem TEST_TRUE_and_TEST_FALSE_go_on w name (e : bool) text line (k : TestFunction (F := F)) :
  vector_at (GetTestNames (self w)) (GetCurrentRunningTest (self w)) = Some name ->
  run NDEBUG show_float (TEST_TRUE e text line k) w =
    run NDEBUG show_float k (if e then w else macro_reported "TEST_TRUE" text line name w) /\
  run NDEBUG show_float (TEST_FALSE e text line k) w =
    run NDEBUG show_float k (if e then macro_reported "TEST_FALSE" text line name w else w).
Proof.
  intros Hname. split.
  - destruct e; [reflexivity|]. by apply TEST_TRUE_continues.
  - destruct e; [|reflexivity]. cbn [TEST_FALSE run].
    unfold bind, TestFalse, with_self, modify, ret. cbn -[vector_at macro_report].
    unfold bind, current_name, bind, get, defined, GetTestNames, GetCurrentRunningTest in *.
    cbn -[vector_at macro_report]. rewrite Hname. reflexivity.
Qed.

(** ** What the registry run does to the tester and the streams *)

Lemma tester_kept_refl (p : Process (F := F)) : tester_kept p p.
Proof. repeat split; apply extends_refl. Qed.

Lemma out_kept (text : string) (p0 p : Process (F := F)) :
  tester_kept p0 p -> exists p', out text p = Ret tt p' /\ tester_kept p0 p'.
Proof.
  intros (Ht & Ho & Hc & Hw & He). unfold out, modify.
  destruct (is_open (_outstream (tester p))) eqn:Hopen;
    (eexists; split; [reflexivity|]); unfold tester_kept; cbn.
  - split; [done|]. split; [done|]. split; [intros Hclosed; congruence|].
    split; [by apply extends_append|done].
  - split; [done|]. split; [congruence|]. split; [done|].
    split; [done|by apply extends_append].
Qed.

Lemma OutResult_kept (result : bool) (p0 p : Process (F := F)) :
  tester_kept p0 p -> exists p', OutResult result p = Ret tt p' /\ tester_kept p0 p'.
Proof. intros H. unfold OutResult. destruct result; by apply out_kept. Qed.

Lemma on_instance_kept {A} (t : AutomatedTestInstance (F := F)) (m : M A)
    (p0 p : Process (F := F)) :
  tester_kept p0 p ->
  post (fun _ p' => tester_kept p0 p') (fun _ => True) True (on_instance t m p).
Proof.
  intros (Ht & Ho & Hc & Hw & He). unfold on_instance.
  destruct (m _) as [a w|w| |]; cbn; try done.
  repeat split; try done. by apply extends_append.
Qed.

Lemma run_names_kept names :
  forall (t : AutomatedTestInstance (F := F)) (counter : Z) (p0 p : Process (F := F)),
  tester_kept p0 p ->
  post (fun _ p' => tester_kept p0 p') (fun _ => True) True
       (run_names NDEBUG show_float names t counter p).
Proof.
  induction names as [|n names IH]; intros t counter p0 p Hp; [exact Hp|].
  cbn [run_names]. unfold bind at 1.
  destruct (out_kept (TEXT_WHITE +:+ "Running:" +:+ n +:+ ENDLINE) p0 p Hp) as (p1 & -> & Hp1).
  unfold bind at 1.
  pose proof (on_instance_kept t (RunTest NDEBUG show_float n) p0 p1 Hp1) as Hrun.
  destruct (on_instance t _ p1) as [ran p2| | |]; cbn [post] in Hrun |- *; try done.
  unfold bind at 1. destruct (OutResult_kept ran.1 p0 p2 Hrun) as (p3 & -> & Hp3).
  unfold bind at 1. destruct (out_kept ENDLINE p0 p3 Hp3) as (p4 & -> & Hp4).
  by apply IH.
Qed.

Lemma run_suite_kept (newTest : string * TestClass (F := F)) (p0 p : Process (F := F)) :
  tester_kept p0 p ->
  post (fun _ p' => tester_kept p0 p') (fun _ => True) True
       (run_suite NDEBUG show_float newTest p).
Proof.
  intros Hp. unfold run_suite. unfold bind at 1.
  destruct (out_kept (TEXT_WHITE +:+ ENDLINE +:+ "Begin testing:" +:+ newTest.1 +:+ ENDLINE)
              p0 p Hp) as (p1 & -> & Hp1).
  unfold bind at 1.
  pose proof (on_instance_kept (new_instance (members newTest.2)) (Define NDEBUG newTest.2)
                p0 p1 Hp1) as Hdef.
  destruct (on_instance _ _ p1) as [d p2| | |]; cbn [post] in Hdef |- *; try done.
  unfold bind at 1.
  pose proof (run_names_kept (GetTestNames d.2) d.2 0 p0 p2 Hdef) as Hnames.
  destruct (run_names _ _ _ _ _ p2) as [ran p3| | |]; cbn [post] in Hnames |- *; try done.
  unfold bind at 1.
  destruct (out_kept (TEXT_RED +:+ GetLog ran.2 +:+ ENDLINE) p0 p3 Hnames) as (p4 & -> & Hp4).
  unfold bind at 1.
  match goal with |- context [out ?text p4] =>
    destruct (out_kept text p0 p4 Hp4) as (p5 & -> & Hp5) end.
  unfold bind at 1.
  match goal with |- context [out ?text p5] =>
    destruct (out_kept text p0 p5 Hp5) as (p6 & -> & Hp6) end.
  unfold bind at 1.
  match goal with |- context [OutResult ?r p6] =>
    destruct (OutResult_kept r p0 p6 Hp6) as (p7 & -> & Hp7) end.
  unfold bind at 1.
  destruct (out_kept (ENDLINE +:+ ENDLINE) p0 p7 Hp7) as (p8 & -> & Hp8).
  exact Hp8.
Qed.

Lemma run_suites_kept (entries : list (string * TestClass (F := F))) :
  forall (counter : Z) (p0 p : Process (F := F)),
  tester_kept p0 p ->
  post (fun _ p' => tester_kept p0 p') (fun _ => True) True
       (run_suites NDEBUG show_float entries counter p).
Proof.
  induction entries as [|e entries IH]; intros counter p0 p Hp; [exact Hp|].
  cbn [run_suites]. unfold bind at 1.
  pose proof (run_suite_kept e p0 p Hp) as Hsuite.
  destruct (run_suite NDEBUG show_float e p) as [counted p1| | |]; cbn [post] in Hsuite |- *;
    try done.
  by apply IH.
Qed.

(** [SetupOutstream] always returns; the registry is not touched. Without
    a path, nothing changes. With a path that opens, the file is open and
    empty and [std::cerr] has the notice; with one that does not open
    while the stream is closed, the stream is as before and [std::cerr]
    has the complaint. *)
Lemma SetupOutstream_result can_open argv (p : Process (F := F)) :
  exists p', SetupOutstream can_open argv p = Ret tt p' /\
    tester_tests (tester p') = tester_tests (tester p) /\
    match argv !! 1 with
    | None => p' = p
    | Some path =>
        if can_open path
        then _outstream (tester p') = mkFile true "" /\
             process_cerr p' = process_cerr p +:+ "Writing to file:" +:+ path
        else is_open (_outstream (tester p)) = false ->
             _outstream (tester p') = _outstream (tester p) /\
             process_cerr p' =
               process_cerr p +:+ "Could not create log with filename:" +:+ path
    end.
Proof.
  unfold SetupOutstream.
  destruct (Z.ltb_spec 1 (Z.of_nat (length argv))) as [Hlt|Hge].
  - destruct (lookup_lt_is_Some_2 argv 1) as [path Hpath]; [lia|]. rewrite Hpath.
    unfold bind, defined, ret, modify, get, process_cerr_write, modify. cbn.
    destruct (can_open path); cbn.
    + eexists. split; [reflexivity|]. done.
    + destruct (is_open (_outstream (tester p))) eqn:Hopen; eexists; (split; [reflexivity|]);
        split; try done.
  - rewrite lookup_ge_None_2 by lia. by eexists.
Qed.

Lemma SetupOutstream_extends can_open argv (p : Process (F := F)) :
  post (fun _ p' => extends (process_cerr p) (process_cerr p')) (fun _ => True) True
       (SetupOutstream can_open argv p).
Proof.
  unfold SetupOutstream. destruct (1 <? _)%Z; [|apply extends_refl].
  unfold bind at 1. destruct (argv !! 1) as [path|]; [|done]. cbn [defined ret].
  unfold bind, modify, get, process_cerr_write, modify. cbn.
  destruct (is_open _); cbn; apply extends_append, extends_refl.
Qed.

(** X17. When [RunAllTests] is entered with the log file closed and
    returns, the registry is what it was, the log file is closed again and
    [std::cerr] only had text added; when no path was given, or the path
    could not be opened, the stream is the one it was. *)
Theorem RunAllTests_leaves_tester can_open argv (p p' : Process (F := F)) (b : bool) :
  is_open (_outstream (tester p)) = false ->
  RunAllTests NDEBUG show_float can_open argv p = Ret b p' ->
  tester_tests (tester p') = tester_tests (tester p) /\
  is_open (_outstream (tester p')) = false /\
  extends (process_cerr p) (process_cerr p') /\
  (match argv !! 1 with Some path => can_open path = false | None => True end ->
   _outstream (tester p') = _outstream (tester p)).
Proof.
  intros Hclosed. unfold RunAllTests. unfold bind at 1.
  destruct (SetupOutstream_result can_open argv p) as (p1 & Hp1 & Ht1 & Hs1).
  pose proof (SetupOutstream_extends can_open argv p) as He1. rewrite Hp1 in He1 |- *.
  cbn [post] in He1.
  unfold bind at 1, get. unfold bind at 1.
  pose proof (run_suites_kept (tester_tests (tester p1)) 0 p1 p1 (tester_kept_refl p1)) as Hrun.
  destruct (run_suites _ _ _ _ p1) as [c p2| | |]; cbn [post] in Hrun; try discriminate.
  unfold bind at 1.
  match goal with |- context [out ?text p2] =>
    destruct (out_kept text p1 p2 Hrun) as (p3 & -> & Hp3) end.
  unfold bind at 1.
  match goal with |- context [OutResult ?r p3] =>
    destruct (OutResult_kept r p1 p3 Hp3) as (p4 & -> & Hp4) end.
  unfold bind at 1. destruct (out_kept ENDLINE p1 p4 Hp4) as (p5 & -> & Hp5).
  unfold bind at 1. destruct (out_kept TEXT_WHITE p1 p5 Hp5) as (p6 & -> & Hp6).
  unfold bind, EndOutputStream, modify, ret. intros [= _ <-].
  destruct Hp6 as (Ht & Ho & Hc & Hw & He).
  assert (extends (process_cerr p) (process_cerr p6)) as Hcerr
    by (by eapply extends_trans).
  assert (match argv !! 1 with Some path => can_open path = false | None => True end ->
          _outstream (tester p1) = _outstream (tester p)) as Hsame.
  { destruct (argv !! 1) as [path|]; [|by subst p1].
    intros Hno. rewrite Hno in Hs1. by apply Hs1. }
  destruct (is_open (_outstream (tester p6))) eqn:Hopen; cbn.
  - split; [congruence|]. split; [done|]. split; [done|].
    intros Hno. specialize (Hsame Hno). rewrite Hsame in Ho. congruence.
  - split; [congruence|]. split; [done|]. split; [done|].
    intros Hno. specialize (Hsame Hno). rewrite Hc; [done|]. by rewrite Hsame.
Qed.

(** X18. With assertions compiled out, or when no body calls [TestEqual],
    [RunAllTests] over a registry (below 2^32 entries) of orderly classes
    returns, and it returns true exactly when every registered suite
    passed all its cases; [RUN_ALL_TESTS] then makes [main] return 0 for
    true and 1 for false. *)
Theorem RunAllTests_returns_verdict equal_allowed can_open argv (p : Process (F := F)) :
  NDEBUG = true \/ equal_allowed = false ->
  (Z.of_nat (length (tester_tests (tester p))) < 2 ^ 32)%Z ->
  Forall (fun e => orderly equal_allowed e.2) (tester_tests (tester p)) ->
  exists b p', RunAllTests NDEBUG show_float can_open argv p = Ret b p' /\
    RUN_ALL_TESTS NDEBUG show_float can_open argv p = Ret (if b then 0%Z else 1%Z) p' /\
    (b = true <-> Forall (fun e => fully_passed NDEBUG show_float e.2) (tester_tests (tester p))).
Proof.
  intros Hmode Hsize Hall.
  destruct (RunAllTests_returns equal_allowed can_open argv p Hmode Hall) as (b & p' & Hrun).
  exists b, p'. split; [exact Hrun|].
  split; [unfold RUN_ALL_TESTS, bind; rewrite Hrun; by destruct b|].
  assert (Forall (fun e => (Z.of_nat (length (Define_calls e.2)) < 2 ^ 32)%Z)
            (tester_tests (tester p))) as Hsuites.
  { eapply Forall_impl; [exact Hall|]. intros e (_ & _ & Hmax & _).
    unfold INT_MAX in Hmax. lia. }
  unfold RunAllTests in Hrun. unfold bind at 1 in Hrun.
  pose proof (SetupOutstream_post can_open argv p) as Hsetup.
  destruct (SetupOutstream can_open argv p) as [[] p1| | |]; cbn [post] in Hsetup;
    try discriminate.
  unfold bind at 1, get in Hrun. rewrite Hsetup in Hrun. unfold bind at 1 in Hrun.
  pose proof (run_suites_post _ Hsuites 0 p1) as Hpost.
  change (0 mod 2 ^ 32)%Z with 0%Z in Hpost.
  destruct (run_suites NDEBUG show_float _ 0 p1) as [c p2| | |]; cbn [post] in Hpost;
    try discriminate.
  destruct Hpost as (_ & k & Hc & Hk & Hiff).
  unfold bind, out, OutResult, EndOutputStream, modify, ret in Hrun.
  assert (b = (c =? Z.of_nat (length (tester_tests (tester p))))%Z) as ->.
  { destruct (c =? _)%Z; cbn in Hrun; congruence. }
  rewrite <- Hiff, Z.eqb_eq, Hc, Z.add_0_l, Z.mod_small by lia. lia.
Qed.


(** ** Comparing floats *)

Lemma binary_round_sign (s : bool) (m : positive) (e : Z) :
  SFabs (binary_round prec emax s m e) = SFabs (binary_round prec emax false m e).
Proof.
  unfold binary_round. destruct (shl_align _ _ _) as [mz ez].
  unfold binary_round_aux. destruct (shr_fexp _ _ _ _ _) as [mrs' e'].
  destruct (shr_fexp _ _ _ _ _) as [mrs'' e''].
  destruct (shr_m mrs''); [reflexivity| |reflexivity].
  destruct (_ <=? _)%Z; reflexivity.
Qed.

Lemma binary_normalize_opp (z e : Z) :
  SFabs (binary_normalize prec emax (- z) e false) = SFabs (binary_normalize prec emax z e false).
Proof.
  destruct z as [|m|m]; [reflexivity| |].
  - exact (binary_round_sign true m e).
  - symmetry. exact (binary_round_sign true m e).
Qed.

Lemma float_sub_swap (a b : float) :
  float_abs (float_sub a b) = float_abs (float_sub b a).
Proof.
  unfold float_abs, float_sub.
  destruct a as [sa|sa| |sa ma ea], b as [sb|sb| |sb mb eb];
    try (by destruct sa, sb); try (by destruct sa); try (by destruct sb); try reflexivity.
  cbn [SFsub]. rewrite (Z.min_comm eb ea), <- binary_normalize_opp. f_equal. f_equal. lia.
Qed.

Lemma floatsAlmostSame_not_finite (a b : float) :
  isfinite a = false \/ isfinite b = false -> __floatsAlmostSame a b = false.
Proof.
  intros [H|H]; destruct a as [sa|sa| |sa ma ea], b as [sb|sb| |sb mb eb];
    try discriminate; try reflexivity; try (by destruct sa); try (by destruct sb);
    by destruct sa, sb.
Qed.

(** X20. [TestEqual] on [float] never passes when an operand is a NaN or
    an infinity, not even on two equal infinities: it reports the
    mismatch, sets the flag and fails (or stops at the assertion). *)
Theorem TestEqual_float_not_finite (value expected : float) w :
  isfinite value = false \/ isfinite expected = false ->
  TestEqual_float NDEBUG show_float value expected w
    = mismatch NDEBUG (show_float expected) (show_float value) w.
Proof.
  intros H. unfold TestEqual_float. by rewrite (floatsAlmostSame_not_finite _ _ H).
Qed.

(** X21. [__floatsAlmostSame] does not depend on the order of its
    operands, so swapping [value] and [expected] in [TestEqual] changes
    the diagnostic only, never the verdict; and a value is almost the
    same as itself exactly when it is finite. *)
Theorem floatsAlmostSame_symmetric (a b : float) :
  __floatsAlmostSame a b = __floatsAlmostSame b a /\
  __floatsAlmostSame a a = isfinite a /\
  (forall w, TestEqual_float NDEBUG show_float a b w = Ret true w <->
             TestEqual_float NDEBUG show_float b a w = Ret true w).
Proof.
  assert (__floatsAlmostSame a b = __floatsAlmostSame b a) as Hswap
    by (unfold __floatsAlmostSame; by rewrite float_sub_swap).
  split; [exact Hswap|]. split.
  - destruct a as [sa|sa| |sa ma ea]; try (by destruct sa); [reflexivity|].
    unfold __floatsAlmostSame, float_sub, SFsub. cbv zeta. by rewrite Z.sub_diag.
  - intros w. unfold TestEqual_float. rewrite Hswap.
    destruct (__floatsAlmostSame b a); cbn [negb]; [done|].
    assert (forall e v, mismatch NDEBUG e v w <> Ret true w) as Hno.
    { intros e v. unfold mismatch, bind. destruct (current_name w) as [n w1| | |]; try done.
      unfold cerr_write, with_self, modify, ret.
      match goal with |- context [cassert NDEBUG ?c ?s] =>
        destruct (cassert_cases c s) as [-> | ->] end; done. }
    split; intros Hret; by apply Hno in Hret.
Qed.

(** ** A failed check fails the case *)


(** ** The suite run against the spec *)






(** ** Points of a run *)











(** ** A freshly defined suite, run *)




End Properties.

(** * The theorems at concrete suites *)

Lemma GetResult_defined_iff_declared_witness :
  consistent declared_a /\
  (is_Some (GetResult declared_a "a") <-> "a" ∈ GetTestNames declared_a) /\
  GetResult declared_a "a" = Some NOT_TESTED /\
  GetResult declared_a "b" = None.
Proof.
  assert (consistent declared_a) as Hc by (split; [reflexivity|vm_compute; discriminate]).
  split; [exact Hc|]. split; [|split; reflexivity].
  exact (GetResult_defined_iff_declared declared_a "a" Hc).
Defined.

Lemma AddTest_overwrites_witness :
  map_ordered (tester_tests tester_AB) = true /\
  is_Some (map_find "A" (tester_tests tester_AB)) /\
  map_find "A" (tester_tests (AddTest other_class "A" tester_AB)) = Some other_class /\
  map fst (tester_tests (AddTest other_class "A" tester_AB)) = ["A"; "B"].
Proof.
  assert (map_ordered (tester_tests tester_AB) = true) as Hord by reflexivity.
  assert (is_Some (map_find "A" (tester_tests tester_AB))) as Hin by (eexists; reflexivity).
  destruct (AddTest_overwrites other_class "A" tester_AB Hord Hin) as (Hnew & _ & Hkeys & _).
  split; [exact Hord|]. split; [exact Hin|]. split; [exact Hnew|].
  rewrite Hkeys. reflexivity.
Defined.

Lemma TestEqual_mismatch_reports_on_cerr_witness :
  vector_at (GetTestNames (self running_a)) (GetCurrentRunningTest (self running_a)) = Some "a" /\
  TestEqual_int true 5 6 running_a = Ret false (mismatch_reported "a" "6" "5" running_a) /\
  TestEqual_int false 5 6 running_a = Aborted (mismatch_reported "a" "6" "5" running_a).
Proof.
  assert (vector_at (GetTestNames (self running_a)) (GetCurrentRunningTest (self running_a))
          = Some "a") as Hname by reflexivity.
  split; [exact Hname|]. split.
  - destruct (TestEqual_mismatch_reports_on_cerr true show_nothing running_a "a" Hname)
      as (Hint & _).
    destruct (Hint 5%Z 6%Z) as [H _]; [lia|exact H].
  - destruct (TestEqual_mismatch_reports_on_cerr false show_nothing running_a "a" Hname)
      as (Hint & _).
    destruct (Hint 5%Z 6%Z) as [H _]; [lia|exact H].
Defined.

(** C4 as stated fails: after [TestEqual(5, 6)] in the running case
    ["a"], the text [GetLog] returns is what it was, empty; the diagnostic
    is on [std::cerr]. *)
Lemma TestEqual_mismatch_leaves_log_empty :
  exists w', TestEqual_int true 5 6 running_a = Ret false w' /\
    GetLog (self running_a) = "" /\
    GetLog (self w') = "" /\
    GetLog (self w') <> GetLog (self running_a) +:+ diagnostic "a" "6" "5" /\
    cerr w' = diagnostic "a" "6" "5".
Proof. eexists. repeat split. discriminate. Qed.

(** C8 as stated fails: [TestEqual(1.0000001f, 1.0f)] does not pass; with
    assertions compiled out it returns [false] with the flag set, with
    assertions on it stops the process. *)
Lemma TestEqual_float_1_0000001_fails :
  TestEqual_float true show_nothing f_1_0000001 f_1_0 running_a
    = Ret false (mismatch_reported "a" "" "" running_a) /\
  TestEqual_float false show_nothing f_1_0000001 f_1_0 running_a
    = Aborted (mismatch_reported "a" "" "" running_a).
Proof. split; vm_compute; reflexivity. Qed.

(** The failing input of C6: the suite with the single case ["a"], run
    once. [RunTest("a")] returns [true], and afterwards
    [GetCurrentRunningTest()] is 0, not -1. *)
Lemma RunTest_leaves_index_set_witness :
  exists w', RunTest true show_nothing "a" (mkWorld declared_a "" []) = Ret true w' /\
    GetCurrentRunningTest (self w') = 0%Z /\
    (0 <= GetCurrentRunningTest (self w'))%Z /\ GetCurrentRunningTest (self w') <> (-1)%Z.
Proof.
  eexists. split; [vm_compute; reflexivity|]. split; [reflexivity|].
  eapply (RunTest_leaves_index_set true show_nothing (mkWorld declared_a "" []) "a" true).
  vm_compute; reflexivity.
Defined.









Lemma RunAllTests_result_witness :
  (Z.of_nat (length (tester_tests (tester process_ABC))) < 2 ^ 32)%Z /\
  Forall (fun e => (Z.of_nat (length (Define_calls e.2)) < 2 ^ 32)%Z)
         (tester_tests (tester process_ABC)) /\
  (exists p', RunAllTests true show_nothing no_file ["test.exe"] process_ABC = Ret false p') /\
  suite_results true show_nothing suite_A = Some [true; true] /\
  suite_results true show_nothing suite_B = Some [true; false] /\
  suite_results true show_nothing suite_C = Some [false] /\
  ~ Forall (fun e => fully_passed true show_nothing e.2) (tester_tests (tester process_ABC)).
Proof.
  assert (Z.of_nat (length (tester_tests (tester process_ABC))) < 2 ^ 32)%Z as Hsize
    by (vm_compute; reflexivity).
  assert (Forall (fun e => (Z.of_nat (length (Define_calls e.2)) < 2 ^ 32)%Z)
                 (tester_tests (tester process_ABC))) as Hsuites
    by (repeat constructor).
  assert (exists p', RunAllTests true show_nothing no_file ["test.exe"] process_ABC = Ret false p')
    as [p' Hrun] by (eexists; vm_compute; reflexivity).
  split; [exact Hsize|]. split; [exact Hsuites|]. split; [by exists p'|].
  split; [reflexivity|]. split; [reflexivity|]. split; [reflexivity|].
  intros Hall.
  destruct (RunAllTests_result true show_nothing no_file ["test.exe"] process_ABC p' false
              Hsize Hsuites Hrun) as (_ & _ & Hiff).
  apply Hiff in Hall. discriminate.
Defined.

(** * The further properties at concrete suites *)

Lemma AddTest_new_name_witness :
  map_ordered (tester_tests tester_AB) = true /\
  map_find "C" (tester_tests tester_AB) = None /\
  map_find "C" (tester_tests (AddTest other_class "C" tester_AB)) = Some other_class /\
  map_find "A" (tester_tests (AddTest other_class "C" tester_AB))
    = map_find "A" (tester_tests tester_AB) /\
  length (tester_tests (AddTest other_class "C" tester_AB)) = 3.
Proof.
  assert (map_ordered (tester_tests tester_AB) = true) as Hord by reflexivity.
  assert (map_find "C" (tester_tests tester_AB) = None) as Hnew by reflexivity.
  destruct (AddTest_new_name other_class "C" tester_AB Hord Hnew) as (Hlen & Hfind & Hother & _).
  split; [exact Hord|]. split; [exact Hnew|]. split; [exact Hfind|].
  split; [apply Hother; discriminate|exact Hlen].
Defined.

Lemma run_inserters_any_order_witness :
  map_ordered (tester_tests (GetInstance_initial (F := unit))) = true /\
  NoDup [("B", mkClass tt one_case); ("A", other_class)].*1 /\
  run_inserters [("B", mkClass tt one_case); ("A", other_class)] GetInstance_initial
    = run_inserters [("A", other_class); ("B", mkClass tt one_case)] GetInstance_initial /\
  map_find "A" (tester_tests
     (run_inserters [("B", mkClass tt one_case); ("A", other_class)] GetInstance_initial))
    = Some other_class.
Proof.
  assert (map_ordered (tester_tests (GetInstance_initial (F := unit))) = true) as Hord
    by reflexivity.
  assert (NoDup [("B", mkClass tt one_case); ("A", other_class)].*1) as Hnd
    by (apply (bool_decide_unpack _); vm_compute; exact I).
  destruct (run_inserters_any_order
              [("B", mkClass tt one_case); ("A", other_class)]
              [("A", other_class); ("B", mkClass tt one_case)]
              GetInstance_initial Hord Hnd (perm_swap _ _ _)) as [Hsame Hfind].
  split; [exact Hord|]. split; [exact Hnd|]. split; [exact Hsame|].
  apply Hfind. right. left.
Defined.

Lemma TestCase_adds_untested_witness :
  consistent declared_a /\
  (Z.of_nat (length (_tests declared_a)) < INT_MAX)%Z /\
  TestCase false "b" Return (mkWorld declared_a "" [])
    = Ret tt (case_added "b" Return (mkWorld declared_a "" [])) /\
  GetTestNames (self (case_added "b" Return (mkWorld declared_a "" []))) = ["a"; "b"] /\
  GetResults (self (case_added "b" Return (mkWorld declared_a "" [])))
    = [NOT_TESTED; NOT_TESTED] /\
  GetResult (self (case_added "b" Return (mkWorld declared_a "" []))) "b" = Some NOT_TESTED.
Proof.
  assert (consistent declared_a) as Hc by (split; [reflexivity|vm_compute; discriminate]).
  assert (Z.of_nat (length (_tests declared_a)) < INT_MAX)%Z as Hroom by (vm_compute; reflexivity).
  assert (TestCase false "b" Return (mkWorld declared_a "" [])
          = Ret tt (case_added "b" Return (mkWorld declared_a "" []))) as Hrun
    by (vm_compute; reflexivity).
  destruct (TestCase_adds_untested false (mkWorld declared_a "" []) _ "b" Return Hc Hroom Hrun)
    as (Hnames & Hresults & _ & _ & Hnew & _).
  split; [exact Hc|]. split; [exact Hroom|]. split; [exact Hrun|].
  split; [exact Hnames|]. split; [exact Hresults|].
  apply Hnew. apply (bool_decide_unpack _). vm_compute. exact I.
Defined.

Lemma TestCase_NUL_duplicate_witness :
  (name_a_NUL_b ∉ GetTestNames declared_a) /\
  (c_str name_a_NUL_b ∈ GetTestNames declared_a) /\
  (Z.of_nat (length (_tests declared_a)) < INT_MAX)%Z /\
  TestCase false name_a_NUL_b Return (mkWorld declared_a "" [])
    = Ret tt (case_added name_a_NUL_b Return (mkWorld declared_a "" [])) /\
  GetTestNames (self (case_added name_a_NUL_b Return (mkWorld declared_a "" []))) = ["a"; "a"].
Proof.
  assert (name_a_NUL_b ∉ GetTestNames declared_a) as Hnew
    by (apply (bool_decide_unpack _); vm_compute; exact I).
  assert (c_str name_a_NUL_b ∈ GetTestNames declared_a) as Hold
    by (apply (bool_decide_unpack _); vm_compute; exact I).
  assert (Z.of_nat (length (_tests declared_a)) < INT_MAX)%Z as Hroom by (vm_compute; reflexivity).
  split; [exact Hnew|]. split; [exact Hold|]. split; [exact Hroom|].
  split; [|reflexivity].
  exact (proj1 (TestCase_NUL_duplicate false (mkWorld declared_a "" []) name_a_NUL_b Return
                  Hnew Hold Hroom)).
Defined.



Lemma RunTest_after_ResetFlags_undefined_witness :
  consistent declared_r /\
  NoDup (GetTestNames declared_r) /\
  (exists w2, run true show_nothing (Call_ResetFlags Return) (entered 0 (mkWorld declared_r "" []))
              = Ret tt w2 /\ GetCurrentRunningTest (self w2) = (-1)%Z) /\
  RunTest true show_nothing "r" (mkWorld declared_r "" []) = Undefined.
Proof.
  assert (consistent declared_r) as Hc by (split; [reflexivity|vm_compute; discriminate]).
  assert (NoDup (GetTestNames declared_r)) as Hnd
    by (apply (bool_decide_unpack _); vm_compute; exact I).
  assert (exists w2, run true show_nothing (Call_ResetFlags Return)
                       (entered 0 (mkWorld declared_r "" [])) = Ret tt w2 /\
                     GetCurrentRunningTest (self w2) = (-1)%Z) as (w2 & Hbody & Hindex)
    by (eexists; split; vm_compute; reflexivity).
  split; [exact Hc|]. split; [exact Hnd|]. split; [by exists w2|].
  apply (RunTest_after_ResetFlags_undefined true show_nothing (mkWorld declared_r "" []) 0
           (mkCase "r" (Call_ResetFlags Return)) w2 Hc Hnd eq_refl Hbody).
  left. rewrite Hindex. reflexivity.
Defined.

Lemma failure_names_running_case_witness :
  undisturbed (entered 0 world_ab) (entered 0 world_ab) /\
  current_name (entered 0 world_ab) = Ret "a" (entered 0 world_ab) /\
  TestEqual_int true 5 6 (entered 0 world_ab)
    = Ret false (mismatch_reported "a" "6" "5" (entered 0 world_ab)).
Proof.
  assert (undisturbed (entered 0 world_ab) (entered 0 world_ab)) as Hsame
    by (repeat split; intros H; exact H).
  destruct (failure_names_running_case true world_ab 0
              (mkCase "a" (Call_TestEqual_int 5 6 (fun _ => Return))) (entered 0 world_ab)
              eq_refl Hsame) as [Hname Hfail].
  split; [exact Hsame|]. split; [exact Hname|].
  apply (Hfail 5%Z 6%Z). lia.
Defined.

Lemma run_only_appends_witness :
  output_kept running_a running_a /\
  post (fun _ w' => output_kept running_a w') (fun w' => output_kept running_a w') True
       (run true show_nothing
          (OutLog_insert "x" (Call_ResetLog (Call_TestEqual_int 5 6 (fun _ => Return))))
          running_a).
Proof.
  assert (output_kept running_a running_a) as Hkept
    by (split; exists ""; reflexivity).
  split; [exact Hkept|].
  exact (run_only_appends true show_nothing _ running_a running_a Hkept).
Defined.

Lemma TEST_TRUE_OR_QUIT_runs_witness :
  vector_at (GetTestNames (self running_a)) (GetCurrentRunningTest (self running_a)) = Some "a" /\
  run true show_nothing
      (TEST_TRUE_OR_QUIT false "ready" 12 (Call_TestEqual_int 5 6 (fun _ => Return))) running_a
    = Ret tt (macro_reported "TEST_TRUE_OR_QUIT" "ready" 12 "a" running_a).
Proof.
  assert (vector_at (GetTestNames (self running_a)) (GetCurrentRunningTest (self running_a))
          = Some "a") as Hname by reflexivity.
  split; [exact Hname|].
  exact (TEST_TRUE_OR_QUIT_runs true show_nothing running_a "a" false "ready" 12
           (Call_TestEqual_int 5 6 (fun _ => Return)) Hname).
Defined.

Lemma TEST_TRUE_and_TEST_FALSE_go_on_witness :
  vector_at (GetTestNames (self running_a)) (GetCurrentRunningTest (self running_a)) = Some "a" /\
  run true show_nothing (TEST_TRUE false "ready" 12 (OutLog_insert "after" Return)) running_a
    = run true show_nothing (OutLog_insert "after" Return)
        (macro_reported "TEST_TRUE" "ready" 12 "a" running_a) /\
  run true show_nothing (TEST_FALSE false "ready" 12 (OutLog_insert "after" Return)) running_a
    = run true show_nothing (OutLog_insert "after" Return) running_a.
Proof.
  assert (vector_at (GetTestNames (self running_a)) (GetCurrentRunningTest (self running_a))
          = Some "a") as Hname by reflexivity.
  split; [exact Hname|].
  exact (TEST_TRUE_and_TEST_FALSE_go_on true show_nothing running_a "a" false "ready" 12
           (OutLog_insert "after" Return) Hname).
Defined.

Lemma RunAllTests_leaves_tester_witness :
  is_open (_outstream (tester process_ABC)) = false /\
  exists p', RunAllTests true show_nothing no_file ["test.exe"; "log.txt"] process_ABC
             = Ret false p' /\
    tester_tests (tester p') = tester_tests (tester process_ABC) /\
    is_open (_outstream (tester p')) = false /\
    extends (process_cerr process_ABC) (process_cerr p') /\
    _outstream (tester p') = _outstream (tester process_ABC).
Proof.
  assert (is_open (_outstream (tester process_ABC)) = false) as Hclosed by reflexivity.
  assert (exists p', RunAllTests true show_nothing no_file ["test.exe"; "log.txt"] process_ABC
                     = Ret false p') as [p' Hrun] by (eexists; vm_compute; reflexivity).
  split; [exact Hclosed|]. exists p'. split; [exact Hrun|].
  destruct (RunAllTests_leaves_tester true show_nothing no_file ["test.exe"; "log.txt"]
              process_ABC p' false Hclosed Hrun) as (Htests & Hend & Hcerr & Hstream).
  split; [exact Htests|]. split; [exact Hend|]. split; [exact Hcerr|].
  apply Hstream. reflexivity.
Defined.

Lemma process_ABC_orderly :
  Forall (fun e => orderly (F := unit) false e.2) (tester_tests (tester process_ABC)).
Proof.
  repeat constructor; try (apply (bool_decide_unpack _); vm_compute; exact I);
    vm_compute; discriminate.
Qed.

Lemma RunAllTests_returns_verdict_witness :
  (false = true \/ false = false) /\
  (Z.of_nat (length (tester_tests (tester process_ABC))) < 2 ^ 32)%Z /\
  Forall (fun e => orderly (F := unit) false e.2) (tester_tests (tester process_ABC)) /\
  exists b p', RunAllTests false show_nothing no_file ["test.exe"] process_ABC = Ret b p' /\
    RUN_ALL_TESTS false show_nothing no_file ["test.exe"] process_ABC
      = Ret (if b then 0%Z else 1%Z) p' /\
    (b = true <->
       Forall (fun e => fully_passed false show_nothing e.2) (tester_tests (tester process_ABC))).
Proof.
  assert (Z.of_nat (length (tester_tests (tester process_ABC))) < 2 ^ 32)%Z as Hsize
    by (vm_compute; reflexivity).
  split; [by right|]. split; [exact Hsize|]. split; [exact process_ABC_orderly|].
  exact (RunAllTests_returns_verdict false show_nothing false no_file ["test.exe"] process_ABC
           (or_intror eq_refl) Hsize process_ABC_orderly).
Defined.


Lemma TestEqual_float_not_finite_witness :
  (isfinite (S754_infinity false) = false \/ isfinite (S754_infinity false) = false) /\
  TestEqual_float true show_nothing (S754_infinity false) (S754_infinity false) running_a
    = Ret false (mismatch_reported "a" "" "" running_a).
Proof.
  split; [by left|].
  exact (TestEqual_float_not_finite true show_nothing (S754_infinity false) (S754_infinity false)
           running_a (or_introl eq_refl)).
Defined.

